(** * Animal-shelter data-access layer: the query engine and its fallbacks

    A shallow embedding of
    - [CS340/Artifact One/Artifact_One_animal_shelter_CRUD.py]: the CSV-backed
      [AnimalShelter] (create / read / update / delete, the query filter
      [_filtered_data], the rescue counters), and
    - [Artifact_Three_animal_shelter_CRUD.py]: the MongoDB-backed
      [AnimalShelter] with its demo mode (canned reads and canned analytics).

    Python objects are one inductive type [value]; dicts are insertion-ordered
    association lists with string keys; exceptions are an error monad; Python
    floats are IEEE binary64 numbers ([spec_float] with [prec = 53],
    [emax = 1024]), converted from and to text with correct rounding.

    Scope of the model: text is ASCII (no Unicode digits or spaces); values
    are compared by content; printing and logging are left out.  In
    [ArtifactOne] a store is the list of its records' contents, which is
    what the code sees as long as the entries of [self.data] and the
    arguments of a call are distinct dict objects; [ArtifactOneInPlace] has
    [update] on dict objects that may be shared. *)

From Stdlib Require Import ZArith List String Ascii Bool Lia.
From Stdlib Require Import Sorting.Permutation Sorting.Sorted.
From Stdlib Require Import Floats.SpecFloat.
From Stdlib Require DecimalString.
Import ListNotations.

Local Open Scope string_scope.
Local Open Scope Z_scope.

(** ** Exceptions *)

Inductive exn : Type :=
| ValueError
| TypeError
| OverflowError
| KeyError
| AttributeError
| Exception_.

Inductive res (A : Type) : Type :=
| Ok (a : A)
| Raise (e : exn).

Arguments Ok {A} a.
Arguments Raise {A} e.

Definition bind {A B : Type} (m : res A) (k : A -> res B) : res B :=
  match m with
  | Ok a => k a
  | Raise e => Raise e
  end.

Notation "x <- m ;; k" := (bind m (fun x => k))
  (at level 61, m at next level, right associativity).

(** ** Text helpers *)

Module Text.

Definition is_digit (c : ascii) : bool :=
  let n := nat_of_ascii c in (Nat.leb 48 n && Nat.leb n 57)%bool.

Definition digit_val (c : ascii) : Z := Z.of_nat (nat_of_ascii c) - 48.

(** [str.isdigit()] on ASCII text: non-empty and digits only. *)
Definition isdigit (s : string) : bool :=
  match list_ascii_of_string s with
  | [] => false
  | l => forallb is_digit l
  end.

(** [s.replace('.', '')]. *)
Definition remove_dots (s : string) : string :=
  string_of_list_ascii
    (filter (fun c => negb (Ascii.eqb c ".")) (list_ascii_of_string s)).

(** Whitespace that [float()] strips from both ends of its text: tab, line
    feed, vertical tab, form feed, carriage return and space. *)
Definition is_space (c : ascii) : bool :=
  let n := nat_of_ascii c in
  ((Nat.leb 9 n && Nat.leb n 13) || Nat.eqb n 32)%bool.

Fixpoint lstrip (l : list ascii) : list ascii :=
  match l with
  | c :: l' => if is_space c then lstrip l' else l
  | [] => []
  end.

Definition strip (l : list ascii) : list ascii :=
  rev (lstrip (rev (lstrip l))).

Definition lower (c : ascii) : ascii :=
  let n := nat_of_ascii c in
  if (Nat.leb 65 n && Nat.leb n 90)%bool then ascii_of_nat (n + 32) else c.

(** Decimal text of an integer, as [str(int)] prints it. *)
Definition of_Z (z : Z) : string := DecimalString.NilZero.string_of_int (Z.to_int z).

(** Value of a run of digits read left to right. *)
Definition digits_val (l : list ascii) : Z :=
  fold_left (fun acc c => 10 * acc + digit_val c) l 0.

(** Longest prefix of digits, and the rest. *)
Fixpoint span_digits (l : list ascii) : list ascii * list ascii :=
  match l with
  | c :: l' =>
      if is_digit c
      then let '(d, r) := span_digits l' in (c :: d, r)
      else ([], l)
  | [] => ([], [])
  end.

Fixpoint repeat0 (n : nat) : string :=
  match n with
  | O => ""
  | S n' => String "0" (repeat0 n')
  end.

(** [needle in hay] for two strings. *)
Fixpoint contains (needle hay : string) : bool :=
  if prefix needle hay then true
  else match hay with
       | EmptyString => false
       | String _ hay' => contains needle hay'
       end.

End Text.

(** ** Binary64 floats *)

Module Float.

Definition float : Type := spec_float.

Definition prec : Z := 53.
Definition emax : Z := 1024.

Definition zero : float := S754_zero false.
Definition nan : float := S754_nan.
Definition inf (s : bool) : float := S754_infinity s.

Definition ltb (x y : float) : bool := SFltb x y.
Definition leb (x y : float) : bool := SFleb x y.
Definition eqb (x y : float) : bool := SFeqb x y.
Definition add (x y : float) : float := SFadd prec emax x y.

(** Number of decimal digits of a positive integer (0 for 0). *)
Definition digits10 (z : Z) : Z :=
  if z <=? 0 then 0 else Z.of_nat (String.length (Text.of_Z z)).

(** The float nearest to [(-1)^s * m * 10^e] (ties to even); what the
    interpreter's [strtod] returns for decimal text.  Values beyond the
    binary64 range become an infinity or a zero. *)
Definition of_decimal (s : bool) (m e : Z) : float :=
  if m <=? 0 then S754_zero s
  else if 310 <? digits10 m + e then S754_infinity s
  else if digits10 m + e <? -330 then S754_zero s
  else if 0 <=? e then binary_normalize prec emax (if s then - (m * 10 ^ e) else m * 10 ^ e) 0 s
  else
    let '(mz, ez, lz) := SFdiv_core_binary prec emax m 0 (10 ^ (- e)) 0 in
    binary_round_aux prec emax s mz ez lz.

(** [float(n)] for an [int]: the nearest float, [OverflowError] beyond the range. *)
Definition of_int (z : Z) : res float :=
  match binary_normalize prec emax z 0 false with
  | S754_infinity _ => Raise OverflowError
  | f => Ok f
  end.

(** Exact comparison of a float with an integer, as [int == float] does. *)
Definition eqb_int (f : float) (z : Z) : bool :=
  match f with
  | S754_zero _ => z =? 0
  | S754_finite s m e =>
      let v := if s then Z.neg m else Z.pos m in
      if 0 <=? e then z =? v * 2 ^ e else z * 2 ^ (- e) =? v
  | _ => false
  end.

(** *** Text to float: the grammar accepted by [float(str)] *)

(** Underscores may only sit between two digits; they are dropped. *)
Fixpoint drop_underscores (prev : ascii) (l : list ascii) : option (list ascii) :=
  match l with
  | [] => if Ascii.eqb prev "_" then None else Some []
  | c :: l' =>
      if Ascii.eqb c "_" then
        if Text.is_digit prev then drop_underscores c l' else None
      else if (Ascii.eqb prev "_" && negb (Text.is_digit c))%bool then None
      else option_map (cons c) (drop_underscores c l')
  end.

Definition split_sign (l : list ascii) : bool * list ascii :=
  match l with
  | c :: l' =>
      if Ascii.eqb c "-" then (true, l')
      else if Ascii.eqb c "+" then (false, l')
      else (false, l)
  | [] => (false, [])
  end.

(** Optional exponent part: [e] or [E], an optional sign, at least one digit,
    and nothing after it. *)
Definition parse_exponent (l : list ascii) : option Z :=
  match l with
  | [] => Some 0
  | c :: l' =>
      if Ascii.eqb (Text.lower c) "e" then
        let '(s, l2) := split_sign l' in
        match Text.span_digits l2 with
        | ((_ :: _) as ds, []) =>
            Some (if s then - Text.digits_val ds else Text.digits_val ds)
        | _ => None
        end
      else None
  end.

Definition parse_decimal (s : bool) (l : list ascii) : option float :=
  let '(ip, r1) := Text.span_digits l in
  let '(fp, r2) :=
    match r1 with
    | c :: r1' => if Ascii.eqb c "." then Text.span_digits r1' else ([], r1)
    | [] => ([], [])
    end in
  match (ip ++ fp)%list with
  | [] => None
  | ds =>
      match parse_exponent r2 with
      | Some e => Some (of_decimal s (Text.digits_val ds) (e - Z.of_nat (List.length fp)))
      | None => None
      end
  end.

Definition parse_special (s : bool) (l : list ascii) : option float :=
  let w := string_of_list_ascii (map Text.lower l) in
  if (String.eqb w "inf" || String.eqb w "infinity")%bool then Some (S754_infinity s)
  else if String.eqb w "nan" then Some S754_nan
  else None.

(** [float(s)] for a [str]. *)
Definition of_string (s : string) : res float :=
  match drop_underscores "000" (Text.strip (list_ascii_of_string s)) with
  | None => Raise ValueError
  | Some l =>
      let '(sg, l') := split_sign l in
      match parse_special sg l' with
      | Some f => Ok f
      | None =>
          match parse_decimal sg l' with
          | Some f => Ok f
          | None => Raise ValueError
          end
      end
  end.

(** *** Float to text: [repr(float)], the shortest digits that read back *)

(** A positive finite float as an exact fraction [p / q]. *)
Definition fraction (m : positive) (e : Z) : Z * Z :=
  if 0 <=? e then (Z.pos m * 2 ^ e, 1) else (Z.pos m, 2 ^ (- e)).

(** [p / q * 10 ^ k] as a fraction, for any sign of [k]. *)
Definition scale10 (pq : Z * Z) (k : Z) : Z * Z :=
  let '(p, q) := pq in
  if 0 <=? k then (p * 10 ^ k, q) else (p, q * 10 ^ (- k)).

(** The decimal point position [k] with [10^(k-1) <= p/q < 10^k]. *)
Definition decimal_point (pq : Z * Z) : Z :=
  let '(p, q) := pq in
  let k0 := digits10 p - digits10 q in
  let '(p', q') := scale10 pq (- k0) in
  if q' <=? p' then k0 + 1 else k0.

(** The [n]-digit integers next to [p/q * 10^(n-k)], nearest first. *)
Definition candidates (pq : Z * Z) (k n : Z) : list Z :=
  let '(p', q') := scale10 pq (n - k) in
  let lo := p' / q' in
  let r := p' mod q' in
  match 2 * r ?= q' with
  | Lt => [lo; lo + 1]
  | Gt => [lo + 1; lo]
  | Eq => if Z.even lo then [lo; lo + 1] else [lo + 1; lo]
  end.

Definition same_float (x y : float) : bool :=
  match x, y with
  | S754_finite s1 m1 e1, S754_finite s2 m2 e2 =>
      (Bool.eqb s1 s2 && Pos.eqb m1 m2 && Z.eqb e1 e2)%bool
  | _, _ => false
  end.

(** Shortest digit string: try 1, 2, ... 17 significant digits.  The result
    is the digits as an integer [d] and the exponent [x] with value
    [d * 10^x]. *)
Fixpoint shortest (fuel : nat) (x : float) (pq : Z * Z) (k n : Z) : Z * Z :=
  match fuel with
  | O => (fst (scale10 pq (17 - k)) / snd (scale10 pq (17 - k)), k - 17)
  | S fuel' =>
      match filter (fun d => same_float (of_decimal false d (k - n)) x)
                   (candidates pq k n) with
      | d :: _ => (d, k - n)
      | [] => shortest fuel' x pq k (n + 1)
      end
  end.

Fixpoint strip_zeros (fuel : nat) (d x : Z) : Z * Z :=
  match fuel with
  | O => (d, x)
  | S fuel' => if d mod 10 =? 0 then strip_zeros fuel' (d / 10) (x + 1) else (d, x)
  end.

Definition exponent_text (e : Z) : string :=
  let sg := if e <? 0 then "-" else "+" in
  let pad := if Z.abs e <? 10 then "0" else "" in
  (sg ++ pad ++ Text.of_Z (Z.abs e))%string.

(** Layout of digits [ds] with the decimal point after [k] of them. *)
Definition layout (ds : string) (k : Z) : string :=
  let len := String.length ds in
  let n := Z.of_nat len in
  let kn := Z.to_nat k in
  if ((k <=? -4) || (16 <? k))%bool then
    let frac := if 1 <? n then String "." (substring 1 (len - 1) ds) else "" in
    (substring 0 1 ds ++ frac ++ "e" ++ exponent_text (k - 1))%string
  else if k <=? 0 then
    ("0." ++ Text.repeat0 (Z.to_nat (- k)) ++ ds)%string
  else if k <? n then
    (substring 0 kn ds ++ "." ++ substring kn (len - kn) ds)%string
  else
    (ds ++ Text.repeat0 (Z.to_nat (k - n)) ++ ".0")%string.

(** [repr(x)], which is also [str(x)]. *)
Definition repr (x : float) : string :=
  match x with
  | S754_nan => "nan"
  | S754_infinity s => if s then "-inf" else "inf"
  | S754_zero s => if s then "-0.0" else "0.0"
  | S754_finite s m e =>
      let pq := fraction m e in
      let k := decimal_point pq in
      let '(d, x10) := shortest 17 (S754_finite false m e) pq k 1 in
      let '(d', x10') := strip_zeros 17 d x10 in
      let ds := Text.of_Z d' in
      let sg := if s then "-" else "" in
      (sg ++ layout ds (Z.of_nat (String.length ds) + x10'))%string
  end.

End Float.

(** ** Dicts: insertion-ordered association lists with string keys *)

Module Dict.

Section Ops.
Context {V : Type}.

(** [d.get(k)]: the value stored under [k], if any. *)
Fixpoint get (k : string) (d : list (string * V)) : option V :=
  match d with
  | [] => None
  | (k', v) :: d' => if String.eqb k k' then Some v else get k d'
  end.

(** [k in d]. *)
Definition has (k : string) (d : list (string * V)) : bool :=
  match get k d with
  | Some _ => true
  | None => false
  end.

(** [d[k] = v]: overwrite in place, or append a new key at the end. *)
Fixpoint set (k : string) (v : V) (d : list (string * V)) : list (string * V) :=
  match d with
  | [] => [(k, v)]
  | (k', v') :: d' =>
      if String.eqb k k' then (k', v) :: d' else (k', v') :: set k v d'
  end.

(** [d.update(patch)]: store every item of [patch], in its order. *)
Definition update (patch d : list (string * V)) : list (string * V) :=
  fold_left (fun acc kv => set (fst kv) (snd kv) acc) patch d.

End Ops.

End Dict.

(** ** Python values *)

#[local] Set Warnings "-register-all".

Inductive value : Type :=
| VNone
| VBool (b : bool)
| VInt (z : Z)
| VFloat (f : Float.float)
| VStr (s : string)
| VList (l : list value)
| VDict (d : list (string * value)).

(** A record of the store, a query and a patch are dicts. *)
Definition dict : Type := list (string * value).

Module Py.

(** *** [repr] and [str] *)

Definition hex_digit (n : nat) : ascii :=
  match get n "0123456789abcdef" with
  | Some c => c
  | None => "0"%char
  end.

Definition has_char (c : ascii) (s : string) : bool :=
  existsb (Ascii.eqb c) (list_ascii_of_string s).

(** Escape one character inside a string literal quoted with [q]. *)
Definition escape_char (q c : ascii) : string :=
  let n := nat_of_ascii c in
  if (Ascii.eqb c q || Ascii.eqb c "\")%bool then String "\" (String c "")
  else if Nat.eqb n 9 then "\t"
  else if Nat.eqb n 10 then "\n"
  else if Nat.eqb n 13 then "\r"
  else if (Nat.ltb n 32 || Nat.eqb n 127)%bool then
    String "\" (String "x" (String (hex_digit (n / 16)) (String (hex_digit (n mod 16)) "")))
  else String c "".

(** [repr(s)] for a [str]: single quotes unless the text has a single quote
    and no double quote. *)
Definition double_quote : ascii := ascii_of_nat 34.

Definition repr_str (s : string) : string :=
  let q := if (has_char "'" s && negb (has_char double_quote s))%bool
           then double_quote else "'"%char in
  String q (concat "" (map (escape_char q) (list_ascii_of_string s)) ++ String q "").

Fixpoint repr (v : value) : string :=
  match v with
  | VNone => "None"
  | VBool b => if b then "True" else "False"
  | VInt z => Text.of_Z z
  | VFloat f => Float.repr f
  | VStr s => repr_str s
  | VList l => "[" ++ concat ", " (map repr l) ++ "]"
  | VDict d =>
      "{" ++ concat ", " (map (fun kv => repr_str (fst kv) ++ ": " ++ repr (snd kv)) d) ++ "}"
  end.

(** [str(v)]: the text itself for a [str], [repr] otherwise. *)
Definition str (v : value) : string :=
  match v with
  | VStr s => s
  | _ => repr v
  end.

(** *** Equality [==] *)

Definition int_of_bool (b : bool) : Z := if b then 1 else 0.

(** Numeric view of a value: [bool] is a subtype of [int]. *)
Definition as_int (v : value) : option Z :=
  match v with
  | VBool b => Some (int_of_bool b)
  | VInt z => Some z
  | _ => None
  end.

Fixpoint eq (a b : value) {struct a} : bool :=
  match a, b with
  | VNone, VNone => true
  | VStr s, VStr t => String.eqb s t
  | VFloat f, VFloat g => Float.eqb f g
  | VFloat f, (VInt _ | VBool _) =>
      match as_int b with Some z => Float.eqb_int f z | None => false end
  | (VInt _ | VBool _), VFloat g =>
      match as_int a with Some z => Float.eqb_int g z | None => false end
  | (VInt _ | VBool _), (VInt _ | VBool _) =>
      match as_int a, as_int b with Some x, Some y => x =? y | _, _ => false end
  | VList l, VList m =>
      (fix eq_list (l : list value) (m : list value) {struct l} : bool :=
         match l, m with
         | [], [] => true
         | x :: l', y :: m' => (eq x y && eq_list l' m')%bool
         | _, _ => false
         end) l m
  | VDict d, VDict d2 =>
      (Nat.eqb (List.length d) (List.length d2) &&
       (fix eq_items (d : list (string * value)) : bool :=
          match d with
          | [] => true
          | (k, x) :: d' =>
              (match Dict.get k d2 with Some y => eq x y | None => false end
               && eq_items d')%bool
          end) d)%bool
  | _, _ => false
  end.

(** [a != b]. *)
Definition ne (a b : value) : bool := negb (eq a b).

(** *** [float(v)] *)

Definition float (v : value) : res Float.float :=
  match v with
  | VFloat f => Ok f
  | VInt z => Float.of_int z
  | VBool b => Float.of_int (int_of_bool b)
  | VStr s => Float.of_string s
  | VNone | VList _ | VDict _ => Raise TypeError
  end.

(** *** Addition of numbers, as [sum] uses it *)

Definition add (a b : value) : res value :=
  match a, b with
  | VFloat f, VFloat g => Ok (VFloat (Float.add f g))
  | VFloat f, (VInt _ | VBool _) =>
      match as_int b with
      | Some z => g <- Float.of_int z ;; Ok (VFloat (Float.add f g))
      | None => Raise TypeError
      end
  | (VInt _ | VBool _), VFloat g =>
      match as_int a with
      | Some z => f <- Float.of_int z ;; Ok (VFloat (Float.add f g))
      | None => Raise TypeError
      end
  | (VInt _ | VBool _), (VInt _ | VBool _) =>
      match as_int a, as_int b with
      | Some x, Some y => Ok (VInt (x + y))
      | _, _ => Raise TypeError
      end
  | _, _ => Raise TypeError
  end.

(** [d[k]] on any value: [TypeError] unless [d] is a dict, [KeyError] when
    the key is absent. *)
Definition getitem (d : value) (k : string) : res value :=
  match d with
  | VDict items =>
      match Dict.get k items with
      | Some v => Ok v
      | None => Raise KeyError
      end
  | _ => Raise TypeError
  end.

(** A float literal of the source, by its text. *)
Definition float_lit (s : string) : value :=
  match Float.of_string s with
  | Ok f => VFloat f
  | Raise _ => VNone
  end.

(** *** Membership [x in c] *)

(** In a list the elements are compared with [==]; in a [str] the test is
    for a substring; in a dict it is a key lookup, which needs a hashable
    [x].  Python tries identity before [==] ([x is e or x == e]); a value is
    equal to itself unless it holds a NaN, so the two tests differ only for
    an element that holds a NaN and is the very object looked for.  Values
    are compared by content here. *)
Definition contains (x c : value) : res bool :=
  match c with
  | VList l => Ok (existsb (eq x) l)
  | VStr hay =>
      match x with
      | VStr needle => Ok (Text.contains needle hay)
      | _ => Raise TypeError
      end
  | VDict d =>
      match x with
      | VStr k => Ok (Dict.has k d)
      | VList _ | VDict _ => Raise TypeError
      | _ => Ok false
      end
  | VNone | VBool _ | VInt _ | VFloat _ => Raise TypeError
  end.

End Py.

(** ** Artifact One: the CSV-backed [AnimalShelter] *)

Module ArtifactOne.

(** The object state: [self.csv_file_path] and [self.data], the records in
    insertion order.  Every entry of [self.data] is a dict of its own, as
    [df.to_dict('records')] builds them. *)
Record AnimalShelter : Type := {
  csv_file_path : string;
  data : list dict
}.

Definition with_data (self : AnimalShelter) (d : list dict) : AnimalShelter :=
  {| csv_file_path := csv_file_path self; data := d |}.

(** [create(data)]: append a dict, reject anything else. *)
Definition create (self : AnimalShelter) (new : value) : res (bool * AnimalShelter) :=
  match new with
  | VDict d => Ok (true, with_data self (data self ++ [d]))
  | _ => Raise ValueError
  end.

(** *** The query filter *)

(** [isinstance(item[key], (int, float, str)) and
    str(item[key]).replace('.', '').isdigit()]; a [bool] is an [int]. *)
Definition looks_numeric (v : value) : bool :=
  match v with
  | VBool _ | VInt _ | VFloat _ | VStr _ => Text.isdigit (Text.remove_dots (Py.str v))
  | VNone | VList _ | VDict _ => false
  end.

(** [float(item[key]) if ... else 0].  The [0] of the else branch is only
    ever compared with a float, so it is taken as [0.0]. *)
Definition item_val (v : value) : res Float.float :=
  if looks_numeric v then Py.float v else Ok Float.zero.

(** The [try: ... except (ValueError, TypeError): match = False] around a
    bound test: other exceptions pass through. *)
Definition except_value_type (r : res bool) : res bool :=
  match r with
  | Raise ValueError | Raise TypeError => Ok false
  | _ => r
  end.

(** One operator of an operator mapping, applied to [item[key]]:
    [Ok false] where the source sets [match = False]. *)
Definition op_holds (v : value) (op : string) (op_value : value) : res bool :=
  if String.eqb op "$in" then
    Py.contains v op_value
  else if String.eqb op "$gte" then
    except_value_type
      (iv <- item_val v ;; ov <- Py.float op_value ;; Ok (negb (Float.ltb iv ov)))
  else if String.eqb op "$lte" then
    except_value_type
      (iv <- item_val v ;; ov <- Py.float op_value ;; Ok (negb (Float.ltb ov iv)))
  else
    Ok (String.eqb (Py.str v) (Py.str op_value)).

(** [for op, op_value in value.items()]: stops at the first operator that
    fails; [Ok true] when none failed. *)
Fixpoint ops_loop (v : value) (ops : dict) : res bool :=
  match ops with
  | [] => Ok true
  | (op, op_value) :: ops' =>
      b <- op_holds v op op_value ;;
      if b then ops_loop v ops' else Ok false
  end.

(** [for key, value in query.items()] with the flag [match].  A missing key
    and a failed equality leave the loop; a failed operator mapping only
    clears the flag, and the remaining keys are still evaluated. *)
Fixpoint keys_loop (item query : dict) (matched : bool) : res bool :=
  match query with
  | [] => Ok matched
  | (key, value) :: query' =>
      match Dict.get key item with
      | None => Ok false
      | Some v =>
          match value with
          | VDict ops =>
              b <- ops_loop v ops ;;
              keys_loop item query' (matched && b)
          | _ =>
              if negb (String.eqb (Py.str v) (Py.str value)) then Ok false
              else keys_loop item query' matched
          end
      end
  end.

(** The body of the outer loop: does [item] go into [filtered_data]? *)
Definition item_passes (item query : dict) : res bool := keys_loop item query true.

Fixpoint filter_loop (items : list dict) (query : dict) : res (list dict) :=
  match items with
  | [] => Ok []
  | item :: items' =>
      b <- item_passes item query ;;
      rest <- filter_loop items' query ;;
      Ok (if b then item :: rest else rest)
  end.

Definition _filtered_data (self : AnimalShelter) (query : dict) : res (list dict) :=
  filter_loop (data self) query.

(** [read(query)]: any exception of the filter gives an empty list. *)
Definition read (self : AnimalShelter) (query : value) : res (list dict) :=
  match query with
  | VDict q =>
      match _filtered_data self q with
      | Ok l => Ok l
      | Raise _ => Ok []
      end
  | _ => Raise Exception_
  end.

(** *** Update and delete *)

Fixpoint _item_matches_query (item query : dict) : bool :=
  match query with
  | [] => true
  | (key, value) :: query' =>
      match Dict.get key item with
      | None => false
      | Some v => if Py.ne v value then false else _item_matches_query item query'
      end
  end.

(** The loop of [update] on the contents of the records.  It is the loop of
    the code when the entries of [self.data], the query and the patch are
    distinct dict objects; [ArtifactOneInPlace.update_loop] is the loop on
    the objects themselves. *)
Fixpoint update_loop (items : list dict) (query update_data : dict)
    (multiple : bool) (updated_count : Z) : list dict * Z :=
  match items with
  | [] => ([], updated_count)
  | item :: items' =>
      if _item_matches_query item query then
        let item' := Dict.update update_data item in
        if negb multiple then (item' :: items', updated_count + 1)
        else
          let '(rest, n) := update_loop items' query update_data multiple (updated_count + 1) in
          (item' :: rest, n)
      else
        let '(rest, n) := update_loop items' query update_data multiple updated_count in
        (item :: rest, n)
  end.

Definition update (self : AnimalShelter) (query update_data : value) (multiple : bool)
  : res (Z * AnimalShelter) :=
  match query, update_data with
  | VDict q, VDict u =>
      let '(items, n) := update_loop (data self) q u multiple 0 in
      Ok (n, with_data self items)
  | _, _ => Raise ValueError
  end.

(** Both branches under [if not multiple] are [continue]. *)
Fixpoint delete_loop (items : list dict) (query : dict) (multiple : bool)
    (deleted_count : Z) (items_to_keep : list dict) : list dict * Z :=
  match items with
  | [] => (items_to_keep, deleted_count)
  | item :: items' =>
      if _item_matches_query item query then
        if negb multiple
        then delete_loop items' query multiple (deleted_count + 1) items_to_keep
        else delete_loop items' query multiple (deleted_count + 1) items_to_keep
      else delete_loop items' query multiple deleted_count (items_to_keep ++ [item])
  end.

Definition delete (self : AnimalShelter) (query : value) (multiple : bool)
  : res (Z * AnimalShelter) :=
  match query with
  | VDict q =>
      let '(items_to_keep, n) := delete_loop (data self) q multiple 0 [] in
      Ok (n, with_data self items_to_keep)
  | _ => Raise ValueError
  end.

(** *** Rescue-eligibility counters *)

(** [item.get(key)]: [None] when the key is absent. *)
Definition item_get (item : dict) (key : string) : value :=
  match Dict.get key item with
  | Some v => v
  | None => VNone
  end.

Definition float_const (n : Z) : Float.float := Float.of_decimal false n 0.

(** The test in front of the age check: type, breed list and sex. *)
Definition profile_ok (breeds : list value) (sex : string) (item : dict) : bool :=
  (Py.eq (item_get item "animal_type") (VStr "Dog")
   && existsb (Py.eq (item_get item "breed")) breeds
   && Py.eq (item_get item "sex_upon_outcome") (VStr sex))%bool.

(** The age check of one selected item: the increment of [count].
    [ValueError] and [TypeError] of [float(age)] skip the item. *)
Definition age_increment (lo hi : Z) (item : dict) : res Z :=
  match item_get item "age_upon_outcome_in_weeks" with
  | VNone => Ok 1
  | age =>
      match Py.float age with
      | Ok age_weeks =>
          if (Float.leb (float_const lo) age_weeks && Float.leb age_weeks (float_const hi))%bool
          then Ok 1 else Ok 0
      | Raise ValueError | Raise TypeError => Ok 0
      | Raise e => Raise e
      end
  end.

(** The loop shared, word for word, by the three counters. *)
Fixpoint count_loop (breeds : list value) (sex : string) (lo hi : Z)
    (items : list dict) (count : Z) : res Z :=
  match items with
  | [] => Ok count
  | item :: items' =>
      if profile_ok breeds sex item then
        n <- age_increment lo hi item ;;
        count_loop breeds sex lo hi items' (count + n)
      else count_loop breeds sex lo hi items' count
  end.

Definition water_breeds : list value :=
  [VStr "Labrador Retriever Mix"; VStr "Chesapeake Bay Retriever"; VStr "Newfoundland"].

Definition wilderness_breeds : list value :=
  [VStr "German Shepherd"; VStr "Alaskan Malamute"; VStr "Old English Sheepdog";
   VStr "Siberian Husky"; VStr "Rottweiler"].

Definition disaster_breeds : list value :=
  [VStr "Doberman Pinscher"; VStr "German Shepherd"; VStr "Golden Retriever";
   VStr "Bloodhound"; VStr "Rottweiler"].

Definition _count_water_rescue_dogs (items : list dict) : res Z :=
  count_loop water_breeds "Intact Female" 26 156 items 0.

Definition _count_wilderness_rescue_dogs (items : list dict) : res Z :=
  count_loop wilderness_breeds "Intact Male" 26 156 items 0.

Definition _count_disaster_rescue_dogs (items : list dict) : res Z :=
  count_loop disaster_breeds "Intact Male" 20 300 items 0.

End ArtifactOne.

(** ** Artifact One: [update] on dict objects

    [update] changes the records in place ([item.update(update_data)]), so
    its effect depends on which entries of [self.data], and which of its
    arguments, are one and the same dict object.  Here the dict objects live
    in a heap, [self.data] is the list of their addresses, and an argument is
    either one of these objects or a value of its own. *)

Module ArtifactOneInPlace.

Definition address : Type := nat.

(** The dict objects, by address. *)
Definition heap : Type := list dict.

(** The present contents of the object at [a]; an address beyond the heap
    reads as an empty dict and takes no assignment. *)
Definition deref (h : heap) (a : address) : dict := nth a h [].

(** Give the object at [a] new contents. *)
Fixpoint assign (h : heap) (a : address) (d : dict) : heap :=
  match h, a with
  | [], _ => []
  | _ :: h', O => d :: h'
  | x :: h', S a' => x :: assign h' a' d
  end.

(** An argument of a call: a dict object of the heap, or a value that is no
    object of the heap (a dict literal, [None], a number, ...). *)
Inductive arg : Type :=
| Obj (a : address)
| Val (v : value).

Definition contents (h : heap) (x : arg) : value :=
  match x with
  | Obj a => VDict (deref h a)
  | Val v => v
  end.

(** [self.data]: the addresses of the records, in insertion order; the same
    address may occur more than once. *)
Record AnimalShelter : Type := {
  csv_file_path : string;
  data : list address
}.

(** The records as [ArtifactOne] sees them: by their present contents. *)
Definition records (h : heap) (self : AnimalShelter) : list dict :=
  map (deref h) (data self).

(** [query.items()] at the time of the call. *)
Definition items_of (h : heap) (x : arg) : dict :=
  match contents h x with
  | VDict d => d
  | _ => []
  end.

(** [item.update(update_data)] on the object at [a]; updating a dict with
    itself leaves it as it is. *)
Definition merge (h : heap) (a : address) (update_data : arg) : heap :=
  match update_data with
  | Obj p =>
      if Nat.eqb p a then h
      else assign h a (Dict.update (deref h p) (deref h a))
  | Val _ => assign h a (Dict.update (items_of h update_data) (deref h a))
  end.

(** [for item in self.data]: each test reads the query and the item as they
    are when the item is reached. *)
Fixpoint update_loop (h : heap) (items : list address) (query update_data : arg)
    (multiple : bool) (updated_count : Z) : heap * Z :=
  match items with
  | [] => (h, updated_count)
  | a :: items' =>
      if ArtifactOne._item_matches_query (deref h a) (items_of h query) then
        let h' := merge h a update_data in
        if negb multiple then (h', updated_count + 1)
        else update_loop h' items' query update_data multiple (updated_count + 1)
      else update_loop h items' query update_data multiple updated_count
  end.

(** [update(query, update_data, multiple)]: the count returned and the heap
    it leaves; [self.data] itself is not changed. *)
Definition update (self : AnimalShelter) (h : heap) (query update_data : arg)
    (multiple : bool) : res (Z * heap) :=
  match contents h query, contents h update_data with
  | VDict _, VDict _ =>
      let '(h', n) := update_loop h (data self) query update_data multiple 0 in
      Ok (n, h')
  | _, _ => Raise ValueError
  end.

End ArtifactOneInPlace.

(** ** Artifact Three: the MongoDB-backed [AnimalShelter] and its demo mode *)

Module ArtifactThree.

(** The MongoDB collection is an external collaborator: [find(query,
    projection)] and [aggregate(pipeline)], each read out with [list(...)],
    return documents or raise. *)
Record Collection : Type := {
  find : value -> value -> res (list value);
  aggregate : value -> res (list value)
}.

(** The object state the engine consults: [self.connection_successful],
    [self.auth_enabled] and [self.collection] ([None] in demo mode). *)
Record AnimalShelter : Type := {
  connection_successful : bool;
  auth_enabled : bool;
  collection : option Collection
}.

Definition collection_find (self : AnimalShelter) (query projection : value)
  : res (list value) :=
  match collection self with
  | Some c => find c query projection
  | None => Raise AttributeError
  end.

Definition collection_aggregate (self : AnimalShelter) (pipeline : value)
  : res (list value) :=
  match collection self with
  | Some c => aggregate c pipeline
  | None => Raise AttributeError
  end.

(** [try: ... except Exception: return fallback]. *)
Definition or_else {A : Type} (r : res A) (fallback : A) : A :=
  match r with
  | Ok a => a
  | Raise _ => fallback
  end.

(** *** Reads *)

Definition mock_data : value :=
  VList [
    VDict [
      ("animal_id", VStr "A001");
      ("animal_type", VStr "Dog");
      ("breed", VStr "Labrador Retriever Mix");
      ("age_upon_outcome_in_weeks", VInt 52);
      ("outcome_type", VStr "Adoption");
      ("sex_upon_outcome", VStr "Intact Female");
      ("name", VStr "Buddy");
      ("location_lat", Py.float_lit "30.75");
      ("location_long", Py.float_lit "-97.48")];
    VDict [
      ("animal_id", VStr "A002");
      ("animal_type", VStr "Dog");
      ("breed", VStr "Chesapeake Bay Retriever");
      ("age_upon_outcome_in_weeks", VInt 60);
      ("outcome_type", VStr "Adoption");
      ("sex_upon_outcome", VStr "Intact Female");
      ("name", VStr "Sadie");
      ("location_lat", Py.float_lit "30.76");
      ("location_long", Py.float_lit "-97.49")];
    VDict [
      ("animal_id", VStr "A003");
      ("animal_type", VStr "Dog");
      ("breed", VStr "Newfoundland");
      ("age_upon_outcome_in_weeks", VInt 80);
      ("outcome_type", VStr "Transfer");
      ("sex_upon_outcome", VStr "Intact Female");
      ("name", VStr "Molly");
      ("location_lat", Py.float_lit "30.74");
      ("location_long", Py.float_lit "-97.47")];
    VDict [
      ("animal_id", VStr "A004");
      ("animal_type", VStr "Dog");
      ("breed", VStr "German Shepherd");
      ("age_upon_outcome_in_weeks", VInt 48);
      ("outcome_type", VStr "Adoption");
      ("sex_upon_outcome", VStr "Intact Male");
      ("name", VStr "Max");
      ("location_lat", Py.float_lit "30.77");
      ("location_long", Py.float_lit "-97.5")];
    VDict [
      ("animal_id", VStr "A005");
      ("animal_type", VStr "Dog");
      ("breed", VStr "Alaskan Malamute");
      ("age_upon_outcome_in_weeks", VInt 55);
      ("outcome_type", VStr "Adoption");
      ("sex_upon_outcome", VStr "Intact Male");
      ("name", VStr "Duke");
      ("location_lat", Py.float_lit "30.73");
      ("location_long", Py.float_lit "-97.46")];
    VDict [
      ("animal_id", VStr "A006");
      ("animal_type", VStr "Cat");
      ("breed", VStr "Siamese");
      ("age_upon_outcome_in_weeks", VInt 26);
      ("outcome_type", VStr "Transfer");
      ("sex_upon_outcome", VStr "Spayed Female");
      ("name", VStr "Whiskers");
      ("location_lat", Py.float_lit "30.78");
      ("location_long", Py.float_lit "-97.51")];
    VDict [
      ("animal_id", VStr "A007");
      ("animal_type", VStr "Dog");
      ("breed", VStr "Golden Retriever");
      ("age_upon_outcome_in_weeks", VInt 45);
      ("outcome_type", VStr "Return to Owner");
      ("sex_upon_outcome", VStr "Neutered Male");
      ("name", VStr "Charlie");
      ("location_lat", Py.float_lit "30.72");
      ("location_long", Py.float_lit "-97.45")]].

Definition no_id : value := VDict [("_id", VBool false)].

Definition read_without_auth (self : AnimalShelter) (query : value) : value :=
  if negb (connection_successful self) then mock_data
  else
    or_else
      (match query with
       | VNone => Raise Exception_
       | _ => l <- collection_find self query no_id ;; Ok (VList l)
       end)
      (VList []).

Section Read.

(** [json.dumps(query, default=str)], the text put in the audit entry. *)
Variable json_dumps : value -> res string.

(** [_log_audit_event] writes to the audit collection and swallows every
    failure; it returns nothing. *)
Definition _log_audit_event (self : AnimalShelter) (username action details : string) : unit :=
  tt.

Definition read (self : AnimalShelter) (query : value) (username : string) : value :=
  if negb (connection_successful self) then read_without_auth self query
  else
    or_else
      (match query with
       | VNone => Raise Exception_
       | _ =>
           text <- json_dumps query ;;
           let _ := _log_audit_event self username "READ_RECORDS" ("Query: " ++ text) in
           l <- collection_find self query no_id ;;
           Ok (VList l)
       end)
      (VList []).

End Read.

(** *** Analytics and their canned substitutes *)

Definition _get_mock_breed_performance : value :=
  VList [
    VDict [
      ("breed", VStr "Labrador Retriever Mix");
      ("total_animals", VInt 45);
      ("adoption_count", VInt 38);
      ("adoption_rate", Py.float_lit "84.4");
      ("success_rate", Py.float_lit "91.1")];
    VDict [
      ("breed", VStr "German Shepherd");
      ("total_animals", VInt 32);
      ("adoption_count", VInt 25);
      ("adoption_rate", Py.float_lit "78.1");
      ("success_rate", Py.float_lit "87.5")];
    VDict [
      ("breed", VStr "Golden Retriever");
      ("total_animals", VInt 28);
      ("adoption_count", VInt 24);
      ("adoption_rate", Py.float_lit "85.7");
      ("success_rate", Py.float_lit "92.8")];
    VDict [
      ("breed", VStr "Bulldog");
      ("total_animals", VInt 22);
      ("adoption_count", VInt 16);
      ("adoption_rate", Py.float_lit "72.7");
      ("success_rate", Py.float_lit "81.8")];
    VDict [
      ("breed", VStr "Beagle");
      ("total_animals", VInt 35);
      ("adoption_count", VInt 28);
      ("adoption_rate", Py.float_lit "80.0");
      ("success_rate", Py.float_lit "88.6")]].

Definition breed_performance_pipeline : value :=
  VList [
    VDict [
      ("$match", VDict [
        ("animal_type", VStr "Dog");
        ("outcome_type", VDict [("$in", VList [VStr "Adoption"; VStr "Return to Owner"; VStr "Transfer"])])])];
    VDict [
      ("$group", VDict [
        ("_id", VStr "$breed");
        ("total_animals", VDict [("$sum", VInt 1)]);
        ("adoption_count", VDict [
          ("$sum", VDict [
            ("$cond", VList [
              VDict [("$eq", VList [VStr "$outcome_type"; VStr "Adoption"])];
              VInt 1;
              VInt 0])])]);
        ("return_to_owner_count", VDict [
          ("$sum", VDict [
            ("$cond", VList [
              VDict [("$eq", VList [VStr "$outcome_type"; VStr "Return to Owner"])];
              VInt 1;
              VInt 0])])]);
        ("transfer_count", VDict [
          ("$sum", VDict [
            ("$cond", VList [
              VDict [("$eq", VList [VStr "$outcome_type"; VStr "Transfer"])];
              VInt 1;
              VInt 0])])])])];
    VDict [
      ("$project", VDict [
        ("breed", VStr "$_id");
        ("total_animals", VInt 1);
        ("adoption_count", VInt 1);
        ("adoption_rate", VDict [
          ("$multiply", VList [
            VDict [("$divide", VList [VStr "$adoption_count"; VStr "$total_animals"])];
            VInt 100])]);
        ("success_rate", VDict [
          ("$multiply", VList [
            VDict [
              ("$divide", VList [
                VDict [
                  ("$add", VList [
                    VStr "$adoption_count";
                    VStr "$return_to_owner_count";
                    VStr "$transfer_count"])];
                VStr "$total_animals"])];
            VInt 100])])])];
    VDict [("$match", VDict [("total_animals", VDict [("$gte", VInt 5)])])];
    VDict [("$sort", VDict [("success_rate", VInt (-1)); ("total_animals", VInt (-1))])];
    VDict [("$limit", VInt 15)]].

Definition get_breed_performance_metrics (self : AnimalShelter) : value :=
  if negb (connection_successful self) then _get_mock_breed_performance
  else
    or_else (l <- collection_aggregate self breed_performance_pipeline ;; Ok (VList l))
            _get_mock_breed_performance.

Definition _get_mock_rescue_analytics : value :=
  VDict [
    ("water_rescue", VDict [
      ("total", VInt 25);
      ("breakdown", VList [
        VDict [
          ("_id", VStr "Labrador Retriever Mix");
          ("count", VInt 12);
          ("avg_age_weeks", Py.float_lit "45.2")];
        VDict [
          ("_id", VStr "Chesapeake Bay Retriever");
          ("count", VInt 8);
          ("avg_age_weeks", Py.float_lit "52.7")];
        VDict [
          ("_id", VStr "Newfoundland");
          ("count", VInt 5);
          ("avg_age_weeks", Py.float_lit "61.3")]])]);
    ("wilderness_rescue", VDict [
      ("total", VInt 18);
      ("breakdown", VList [
        VDict [
          ("_id", VStr "German Shepherd");
          ("count", VInt 6);
          ("avg_age_weeks", Py.float_lit "48.5")];
        VDict [
          ("_id", VStr "Alaskan Malamute");
          ("count", VInt 5);
          ("avg_age_weeks", Py.float_lit "55.2")];
        VDict [
          ("_id", VStr "Siberian Husky");
          ("count", VInt 4);
          ("avg_age_weeks", Py.float_lit "42.8")];
        VDict [
          ("_id", VStr "Rottweiler");
          ("count", VInt 3);
          ("avg_age_weeks", Py.float_lit "50.1")]])]);
    ("disaster_rescue", VDict [
      ("total", VInt 32);
      ("breakdown", VList [
        VDict [
          ("_id", VStr "Doberman Pinscher");
          ("count", VInt 8);
          ("avg_age_weeks", Py.float_lit "47.3")];
        VDict [
          ("_id", VStr "German Shepherd");
          ("count", VInt 7);
          ("avg_age_weeks", Py.float_lit "49.2")];
        VDict [
          ("_id", VStr "Golden Retriever");
          ("count", VInt 9);
          ("avg_age_weeks", Py.float_lit "43.7")];
        VDict [
          ("_id", VStr "Bloodhound");
          ("count", VInt 5);
          ("avg_age_weeks", Py.float_lit "58.4")];
        VDict [
          ("_id", VStr "Rottweiler");
          ("count", VInt 3);
          ("avg_age_weeks", Py.float_lit "51.6")]])])].

Definition water_rescue_pipeline : value :=
  VList [
    VDict [
      ("$match", VDict [
        ("animal_type", VStr "Dog");
        ("breed", VDict [
          ("$in", VList [
            VStr "Labrador Retriever Mix";
            VStr "Chesapeake Bay Retriever";
            VStr "Newfoundland"])]);
        ("sex_upon_outcome", VStr "Intact Female")])];
    VDict [
      ("$group", VDict [
        ("_id", VStr "$breed");
        ("count", VDict [("$sum", VInt 1)]);
        ("avg_age_weeks", VDict [("$avg", VStr "$age_upon_outcome_in_weeks")])])]].

Definition wilderness_rescue_pipeline : value :=
  VList [
    VDict [
      ("$match", VDict [
        ("animal_type", VStr "Dog");
        ("breed", VDict [
          ("$in", VList [
            VStr "German Shepherd";
            VStr "Alaskan Malamute";
            VStr "Old English Sheepdog";
            VStr "Siberian Husky";
            VStr "Rottweiler"])]);
        ("sex_upon_outcome", VStr "Intact Male")])];
    VDict [
      ("$group", VDict [
        ("_id", VStr "$breed");
        ("count", VDict [("$sum", VInt 1)]);
        ("avg_age_weeks", VDict [("$avg", VStr "$age_upon_outcome_in_weeks")])])]].

Definition disaster_rescue_pipeline : value :=
  VList [
    VDict [
      ("$match", VDict [
        ("animal_type", VStr "Dog");
        ("breed", VDict [
          ("$in", VList [
            VStr "Doberman Pinscher";
            VStr "German Shepherd";
            VStr "Golden Retriever";
            VStr "Bloodhound";
            VStr "Rottweiler"])]);
        ("sex_upon_outcome", VStr "Intact Male")])];
    VDict [
      ("$group", VDict [
        ("_id", VStr "$breed");
        ("count", VDict [("$sum", VInt 1)]);
        ("avg_age_weeks", VDict [("$avg", VStr "$age_upon_outcome_in_weeks")])])]].

(** [sum(item['count'] for item in breakdown)]. *)
Definition sum_counts (breakdown : list value) : res value :=
  fold_left
    (fun acc item => a <- acc ;; c <- Py.getitem item "count" ;; Py.add a c)
    breakdown (Ok (VInt 0)).

Definition rescue_class (breakdown : list value) : res value :=
  total <- sum_counts breakdown ;;
  Ok (VDict [("total", total); ("breakdown", VList breakdown)]).

Definition get_rescue_type_analytics (self : AnimalShelter) : value :=
  if negb (connection_successful self) then _get_mock_rescue_analytics
  else
    or_else
      (water_breakdown <- collection_aggregate self water_rescue_pipeline ;;
       wilderness_breakdown <- collection_aggregate self wilderness_rescue_pipeline ;;
       disaster_breakdown <- collection_aggregate self disaster_rescue_pipeline ;;
       water <- rescue_class water_breakdown ;;
       wilderness <- rescue_class wilderness_breakdown ;;
       disaster <- rescue_class disaster_breakdown ;;
       Ok (VDict [("water_rescue", water);
                  ("wilderness_rescue", wilderness);
                  ("disaster_rescue", disaster)]))
      _get_mock_rescue_analytics.

Definition _get_mock_adoption_trends : value :=
  VList [
    VDict [
      ("year", VInt 2024);
      ("month", VInt 10);
      ("adoption_count", VInt 62);
      ("dog_adoptions", VInt 38);
      ("cat_adoptions", VInt 22)];
    VDict [
      ("year", VInt 2024);
      ("month", VInt 9);
      ("adoption_count", VInt 58);
      ("dog_adoptions", VInt 36);
      ("cat_adoptions", VInt 20)];
    VDict [
      ("year", VInt 2024);
      ("month", VInt 8);
      ("adoption_count", VInt 65);
      ("dog_adoptions", VInt 40);
      ("cat_adoptions", VInt 23)];
    VDict [
      ("year", VInt 2024);
      ("month", VInt 7);
      ("adoption_count", VInt 60);
      ("dog_adoptions", VInt 38);
      ("cat_adoptions", VInt 20)];
    VDict [
      ("year", VInt 2024);
      ("month", VInt 6);
      ("adoption_count", VInt 58);
      ("dog_adoptions", VInt 36);
      ("cat_adoptions", VInt 20)];
    VDict [
      ("year", VInt 2024);
      ("month", VInt 5);
      ("adoption_count", VInt 60);
      ("dog_adoptions", VInt 38);
      ("cat_adoptions", VInt 20)]].

Definition adoption_trends_pipeline (months : value) : value :=
  VList [
    VDict [
      ("$match", VDict [
        ("outcome_type", VStr "Adoption");
        ("datetime", VDict [("$exists", VBool true); ("$ne", VNone)])])];
    VDict [("$addFields", VDict [("parsed_date", VDict [("$toDate", VStr "$datetime")])])];
    VDict [
      ("$group", VDict [
        ("_id", VDict [
          ("year", VDict [("$year", VStr "$parsed_date")]);
          ("month", VDict [("$month", VStr "$parsed_date")])]);
        ("adoption_count", VDict [("$sum", VInt 1)]);
        ("dog_adoptions", VDict [
          ("$sum", VDict [
            ("$cond", VList [VDict [("$eq", VList [VStr "$animal_type"; VStr "Dog"])]; VInt 1; VInt 0])])]);
        ("cat_adoptions", VDict [
          ("$sum", VDict [
            ("$cond", VList [VDict [("$eq", VList [VStr "$animal_type"; VStr "Cat"])]; VInt 1; VInt 0])])])])];
    VDict [
      ("$project", VDict [
        ("year", VStr "$_id.year");
        ("month", VStr "$_id.month");
        ("adoption_count", VInt 1);
        ("dog_adoptions", VInt 1);
        ("cat_adoptions", VInt 1)])];
    VDict [("$sort", VDict [("_id.year", VInt (-1)); ("_id.month", VInt (-1))])];
    VDict [("$limit", months)]].

Definition get_monthly_adoption_trends (self : AnimalShelter) (months : value) : value :=
  if negb (connection_successful self) then _get_mock_adoption_trends
  else
    or_else (l <- collection_aggregate self (adoption_trends_pipeline months) ;; Ok (VList l))
            _get_mock_adoption_trends.

Definition _get_mock_demographics : value :=
  VList [
    VDict [
      ("animal_type", VStr "Dog");
      ("total_count", VInt 65);
      ("avg_age_weeks", Py.float_lit "45.2")];
    VDict [
      ("animal_type", VStr "Cat");
      ("total_count", VInt 35);
      ("avg_age_weeks", Py.float_lit "32.7")];
    VDict [
      ("animal_type", VStr "Bird");
      ("total_count", VInt 12);
      ("avg_age_weeks", Py.float_lit "28.3")];
    VDict [
      ("animal_type", VStr "Other");
      ("total_count", VInt 8);
      ("avg_age_weeks", Py.float_lit "36.5")]].

Definition demographics_pipeline : value :=
  VList [
    VDict [
      ("$group", VDict [
        ("_id", VStr "$animal_type");
        ("total_count", VDict [("$sum", VInt 1)]);
        ("avg_age_weeks", VDict [("$avg", VStr "$age_upon_outcome_in_weeks")])])];
    VDict [
      ("$project", VDict [("animal_type", VStr "$_id"); ("total_count", VInt 1); ("avg_age_weeks", VInt 1)])];
    VDict [("$sort", VDict [("total_count", VInt (-1))])]].

Definition get_animal_demographics (self : AnimalShelter) : value :=
  if negb (connection_successful self) then _get_mock_demographics
  else
    or_else (l <- collection_aggregate self demographics_pipeline ;; Ok (VList l))
            _get_mock_demographics.

End ArtifactThree.

(** ** Artifact One: export statistics *)

Module ArtifactOneStats.

Import ArtifactOne.

(** Truth value of an object, as [if query] and [if not data] take it. *)
Definition truthy (v : value) : bool :=
  match v with
  | VNone => false
  | VBool b => b
  | VInt z => negb (z =? 0)
  | VFloat f => negb (Float.eqb f Float.zero)
  | VStr s => negb (String.eqb s "")
  | VList l => match l with [] => false | _ => true end
  | VDict d => match d with [] => false | _ => true end
  end.

(** Lists and dicts cannot be dict keys. *)
Definition hashable (v : value) : bool :=
  match v with
  | VList _ | VDict _ => false
  | _ => true
  end.

(** A counting dict: keys are field values, compared with [==] (a NaN key
    equals no key), kept in insertion order. *)
Definition tally : Type := list (value * Z).

(** [t.get(k, 0)]. *)
Fixpoint tally_get (k : value) (t : tally) : Z :=
  match t with
  | [] => 0
  | (k', n) :: t' => if Py.eq k' k then n else tally_get k t'
  end.

(** [t[k] = n]: the first key equal to [k] keeps its place and its key. *)
Fixpoint tally_set (k : value) (n : Z) (t : tally) : tally :=
  match t with
  | [] => [(k, n)]
  | (k', n') :: t' => if Py.eq k' k then (k', n) :: t' else (k', n') :: tally_set k n t'
  end.

(** [t[k] = t.get(k, 0) + 1], a [TypeError] for an unhashable key. *)
Definition tally_add (k : value) (t : tally) : res tally :=
  if hashable k then Ok (tally_set k (tally_get k t + 1) t) else Raise TypeError.

(** [item.get(key, 'Unknown')]. *)
Definition get_or_unknown (item : dict) (key : string) : value :=
  match Dict.get key item with
  | Some v => v
  | None => VStr "Unknown"
  end.

(** The counting loop over the records read. *)
Fixpoint stats_loop (items : list dict) (animal_types outcome_types breeds : tally)
  : res (tally * tally * tally) :=
  match items with
  | [] => Ok (animal_types, outcome_types, breeds)
  | item :: items' =>
      animal_types' <- tally_add (get_or_unknown item "animal_type") animal_types ;;
      outcome_types' <- tally_add (get_or_unknown item "outcome_type") outcome_types ;;
      breeds' <- tally_add (get_or_unknown item "breed") breeds ;;
      stats_loop items' animal_types' outcome_types' breeds'
  end.

(** [sorted(pairs, key=lambda x: x[1], reverse=True)]: by count, largest
    first; pairs with equal counts keep their order. *)
Fixpoint insert_by_count (x : value * Z) (sorted : tally) : tally :=
  match sorted with
  | [] => [x]
  | y :: sorted' =>
      if snd x <? snd y then y :: insert_by_count x sorted' else x :: sorted
  end.

Definition sort_by_count (t : tally) : tally := fold_right insert_by_count [] t.

Record export_stats : Type := {
  total_records : Z;
  animal_types : tally;
  outcome_types : tally;
  breeds_top : tally
}.

Definition get_export_stats (self : AnimalShelter) (query : value) : res export_stats :=
  selected <- read self (if truthy query then query else VDict []) ;;
  match selected with
  | [] =>
      Ok {| total_records := 0; animal_types := []; outcome_types := []; breeds_top := [] |}
  | _ =>
      counts <- stats_loop selected [] [] [] ;;
      let '(animal_types, outcome_types, breeds) := counts in
      let sorted_breeds := sort_by_count breeds in
      Ok {| total_records := Z.of_nat (List.length selected);
            animal_types := animal_types;
            outcome_types := outcome_types;
            breeds_top := firstn 5 sorted_breeds |}
  end.

End ArtifactOneStats.

(** ** Artifact Three: mutations, authentication and user management *)

Module ArtifactThreeAdmin.

Import ArtifactThree.

(** The write side of [self.collection]: [insert_one] gives the inserted id,
    the others the modified or deleted count. *)
Record Writes : Type := {
  insert_one : value -> res value;
  update_one : value -> value -> res Z;
  update_many : value -> value -> res Z;
  delete_one : value -> res Z;
  delete_many : value -> res Z
}.

(** [self.users_collection]: [find_one] gives a document or [None]. *)
Record Users : Type := {
  users_find_one : value -> res value;
  users_find : value -> value -> res (list value);
  users_insert_one : value -> res value;
  users_update_one : value -> value -> res Z
}.

(** [{"$set": update_data}]. *)
Definition set_fields (update_data : value) : value := VDict [("$set", update_data)].

(** A call on [self.collection], which is [None] when the connection was
    never set up. *)
Definition on_collection {A : Type} (self : AnimalShelter) (call : res A) : res A :=
  match collection self with
  | Some _ => call
  | None => Raise AttributeError
  end.

Section Shelter.

(** Collaborators outside the class: [json.dumps(_, default=str)],
    [jwt.encode(payload, key, algorithm='HS256')], [bcrypt.hashpw] with a
    fresh salt, [bcrypt.checkpw], the clock ([utcnow()] and [utcnow()] plus
    24 hours), and the text [str(e)] of a caught exception. *)
Variable json_dumps : value -> res string.
Variable jwt_encode : value -> string -> res value.
Variable hashpw : string -> res value.
Variable checkpw : string -> value -> res bool.
Variable now : value.
Variable tomorrow : value.
Variable describe : exn -> string.

Definition secret_key : string := "grazioso-salvare-secret-key-2025-enhanced".

(** *** Mutations *)

(** [create(data, username)]. *)
Definition create (self : AnimalShelter) (w : Writes) (new : value) (username : string) : bool :=
  if negb (connection_successful self) then false
  else
    or_else
      (match new with
       | VNone => Raise Exception_
       | _ =>
           inserted_id <- on_collection self (insert_one w new) ;;
           Ok (negb (Py.eq inserted_id VNone))
       end)
      false.

(** [update(query, update_data, username, multiple)]: the audit entry of
    the single update embeds [json.dumps(query)], inside the [try]. *)
Definition update (self : AnimalShelter) (w : Writes) (query update_data : value)
    (username : string) (multiple : bool) : Z :=
  if negb (connection_successful self) then 0
  else
    or_else
      (match query, update_data with
       | VNone, _ | _, VNone => Raise Exception_
       | _, _ =>
           if multiple then on_collection self (update_many w query (set_fields update_data))
           else
             modified_count <-
               on_collection self (update_one w query (set_fields update_data)) ;;
             if 0 <? modified_count
             then (_ <- json_dumps query ;; Ok modified_count)
             else Ok modified_count
       end)
      0.

(** [delete(query, username, multiple)]. *)
Definition delete (self : AnimalShelter) (w : Writes) (query : value)
    (username : string) (multiple : bool) : Z :=
  if negb (connection_successful self) then 0
  else
    or_else
      (match query with
       | VNone => Raise Exception_
       | _ =>
           if multiple then on_collection self (delete_many w query)
           else
             deleted_count <- on_collection self (delete_one w query) ;;
             if 0 <? deleted_count
             then (_ <- json_dumps query ;; Ok deleted_count)
             else Ok deleted_count
       end)
      0.

(** *** Authentication *)

(** [default_credentials] of demo mode: user name, password, role. *)
Definition default_credentials : list (string * (string * string)) :=
  [("admin", ("admin234", "admin"));
   ("user", ("user123", "viewer"));
   ("analyst", ("analyst456", "analyst"))].

(** The claims put in a token. *)
Definition token_payload (username role : value) : value :=
  VDict [("username", username); ("role", role); ("exp", tomorrow)].

(** [password.encode('utf-8')] exists for a [str] only. *)
Definition password_text (password : value) : res string :=
  match password with
  | VStr s => Ok s
  | _ => Raise AttributeError
  end.

(** [authenticate_user(username, password)]: in demo mode a lookup in
    [default_credentials], otherwise the users collection and [bcrypt]. *)
Definition authenticate_user (self : AnimalShelter) (users : option Users)
    (username password : value) : res (bool * value) :=
  if negb (connection_successful self) then
    match username with
    | VList _ | VDict _ => Raise TypeError
    | VStr name =>
        match Dict.get name default_credentials with
        | Some (expected_password, role) =>
            if Py.eq password (VStr expected_password) then
              token <- jwt_encode (token_payload username (VStr role)) secret_key ;;
              Ok (true, token)
            else Ok (false, VStr "Invalid credentials in demo mode")
        | None => Ok (false, VStr "Invalid credentials in demo mode")
        end
    | _ => Ok (false, VStr "Invalid credentials in demo mode")
    end
  else
    match
      (match users with
       | None => Raise AttributeError
       | Some u =>
           user <- users_find_one u (VDict [("username", username); ("active", VBool true)]) ;;
           ok <- (if ArtifactOneStats.truthy user then
                    text <- password_text password ;;
                    stored <- Py.getitem user "password" ;;
                    checkpw text stored
                  else Ok false) ;;
           if ok then
             role <- Py.getitem user "role" ;;
             token <- jwt_encode (token_payload username role) secret_key ;;
             Ok (true, token)
           else Ok (false, VStr "Invalid credentials")
       end)
    with
    | Ok r => Ok r
    | Raise e => Ok (false, VStr ("Authentication error: " ++ describe e))
    end.

(** *** User management *)

Definition demo_refusal : bool * value :=
  (false, VStr "Database not available - running in demo mode").

Definition not_admin : bool * value :=
  (false, VStr "Insufficient privileges: Admin role required").

(** [doc.get('role')] on what [find_one] returned. *)
Definition role_of (doc : value) : res value :=
  match doc with
  | VDict d => Ok (match Dict.get "role" d with Some r => r | None => VNone end)
  | _ => Raise AttributeError
  end.

(** [not current_user_data or current_user_data.get('role') != 'admin']. *)
Definition lacks_admin (current_user_data : value) : res bool :=
  if negb (ArtifactOneStats.truthy current_user_data) then Ok true
  else role <- role_of current_user_data ;; Ok (Py.ne role (VStr "admin")).

Definition find_user (users : option Users) (username : value) : res value :=
  match users with
  | None => Raise AttributeError
  | Some u => users_find_one u (VDict [("username", username)])
  end.

Definition valid_roles : list value := [VStr "admin"; VStr "viewer"; VStr "analyst"].

(** [create_user(current_user, username, password, role, email)]. *)
Definition create_user (self : AnimalShelter) (users : option Users)
    (current_user username password role email : value) : bool * value :=
  if negb (connection_successful self) then demo_refusal
  else
    match
      (current_user_data <- find_user users current_user ;;
       refused <- lacks_admin current_user_data ;;
       if refused then Ok not_admin
       else
         existing <- find_user users username ;;
         if ArtifactOneStats.truthy existing then Ok (false, VStr "User already exists")
         else if negb (existsb (Py.eq role) valid_roles) then
           Ok (false, VStr "Invalid role. Must be: admin, viewer, or analyst")
         else
           text <- password_text password ;;
           hashed_password <- hashpw text ;;
           _ <- match users with
                | Some u =>
                    users_insert_one u
                      (VDict [("username", username); ("password", hashed_password);
                              ("role", role); ("email", email); ("created_at", now);
                              ("active", VBool true); ("created_by", current_user)])
                | None => Raise AttributeError
                end ;;
           Ok (true, VStr ("User " ++ Py.str username
                           ++ " created successfully with role " ++ Py.str role)))
    with
    | Ok r => r
    | Raise e => (false, VStr ("Error creating user: " ++ describe e))
    end.

(** [list_users(current_user)]: the users without their passwords. *)
Definition list_users (self : AnimalShelter) (users : option Users) (current_user : value)
  : bool * value :=
  if negb (connection_successful self) then demo_refusal
  else
    match
      (current_user_data <- find_user users current_user ;;
       refused <- lacks_admin current_user_data ;;
       if refused then Ok not_admin
       else
         match users with
         | Some u =>
             l <- users_find u (VDict []) (VDict [("password", VInt 0)]) ;;
             Ok (true, VList l)
         | None => Raise AttributeError
         end)
    with
    | Ok r => r
    | Raise e => (false, VStr ("Error listing users: " ++ describe e))
    end.

(** [deactivate_user(current_user, username)]. *)
Definition deactivate_user (self : AnimalShelter) (users : option Users)
    (current_user username : value) : bool * value :=
  if negb (connection_successful self) then demo_refusal
  else
    match
      (current_user_data <- find_user users current_user ;;
       refused <- lacks_admin current_user_data ;;
       if refused then Ok not_admin
       else if Py.eq username current_user then
         Ok (false, VStr "Cannot deactivate your own account")
       else
         modified_count <-
           match users with
           | Some u =>
               users_update_one u (VDict [("username", username)])
                 (set_fields (VDict [("active", VBool false); ("deactivated_at", now);
                                     ("deactivated_by", current_user)]))
           | None => Raise AttributeError
           end ;;
         if 0 <? modified_count
         then Ok (true, VStr ("User " ++ Py.str username ++ " deactivated successfully"))
         else Ok (false, VStr "User not found or already deactivated"))
    with
    | Ok r => r
    | Raise e => (false, VStr ("Error deactivating user: " ++ describe e))
    end.

End Shelter.

End ArtifactThreeAdmin.

(** * Checks of the value model *)

Module ModelSpec.

(** Text read as a float and printed back. *)
Definition reprint (s : string) : string :=
  match Float.of_string s with
  | Ok f => Float.repr f
  | Raise _ => "ValueError"
  end.

(** [float("0.1")] is the double [0x3FB999999999999A]. *)
Example tenth_is_nearest_double :
  Float.of_string "0.1" = Ok (S754_finite false 7205759403792794 (-56)).
Proof. vm_compute; reflexivity. Qed.

(** [repr] prints the shortest digits that read back, in positional form
    between [1e-4] and [1e16] and in exponent form outside. *)
Example repr_samples :
  map reprint
    ["52"; " 52.50 "; "-97.48"; "1_000.5"; "0.30000000000000004"; "1e15"; "1e16";
     "0.0001"; "0.00001"; "12345678901234567"; "9007199254740993"; "5e-324";
     "1e400"; "-0"; "INF"; "nan"; "1.2.3"; "abc"; ""; "1e"; "0x10"; "1__0"] =
    ["52.0"; "52.5"; "-97.48"; "1000.5"; "0.30000000000000004"; "1000000000000000.0";
     "1e+16"; "0.0001"; "1e-05"; "1.2345678901234568e+16"; "9007199254740992.0";
     "5e-324"; "inf"; "-0.0"; "inf"; "nan"; "ValueError"; "ValueError"; "ValueError";
     "ValueError"; "ValueError"; "ValueError"].
Proof. vm_compute; reflexivity. Qed.

(** [float(n)] overflows from [2^1024 - 2^970] on. *)
Example int_overflow_boundary :
  Float.of_int (2 ^ 1024 - 2 ^ 970) = Raise OverflowError /\
  Float.of_int (2 ^ 1024 - 2 ^ 970 - 1) = Ok (S754_finite false 9007199254740991 971).
Proof. split; vm_compute; reflexivity. Qed.

(** [==] across the numeric types, and [str] of the scalar types. *)
Example eq_and_str_samples :
  Py.eq (VInt 1) (VBool true) = true /\
  Py.eq (VInt 5) (Py.float_lit "5.0") = true /\
  Py.eq (VInt 5) (VStr "5") = false /\
  Py.eq (Py.float_lit "nan") (Py.float_lit "nan") = false /\
  map Py.str [VNone; VBool true; VInt (-3); Py.float_lit "52.9"; VStr "Dog";
              VList [VStr "a"; VInt 1]; VDict [("k", VNone)]] =
    ["None"; "True"; "-3"; "52.9"; "Dog"; "['a', 1]"; "{'k': None}"].
Proof. repeat split; vm_compute; reflexivity. Qed.

End ModelSpec.

(** * Properties of Artifact One *)

Module ArtifactOneSpec.

Import ArtifactOne.

Local Open Scope list_scope.

(** The selection made by [update] and [delete]. *)
Definition selected (query item : dict) : bool := _item_matches_query item query.

Definition count_selected (query : dict) (items : list dict) : Z :=
  Z.of_nat (List.length (filter (selected query) items)).

(** ** The loops of [delete] and [update] in closed form *)

Lemma delete_loop_closed (query : dict) (multiple : bool) (items : list dict) :
  forall deleted_count items_to_keep,
    delete_loop items query multiple deleted_count items_to_keep =
    (items_to_keep ++ filter (fun r => negb (selected query r)) items,
     deleted_count + count_selected query items).
Proof.
  unfold count_selected, selected.
  induction items as [| item items IH]; intros n keep; simpl.
  - now rewrite app_nil_r, Z.add_0_r.
  - destruct (_item_matches_query item query) eqn:Hm; simpl.
    + destruct multiple; simpl; rewrite IH; f_equal; lia.
    + rewrite IH, <- app_assoc. reflexivity.
Qed.


(** ** [update] in place, on distinct objects *)

Module InPlace := ArtifactOneInPlace.













(** ** The query filter, clause by clause *)

(** What one clause of a query asks of the value [v] stored in the item. *)
Definition clause_holds (v clause : value) : Prop :=
  match clause with
  | VDict ops => ops_loop v ops = Ok true
  | _ => String.eqb (Py.str v) (Py.str clause) = true
  end.

(** The test [read] applies to each item, as a boolean: exceptions count as
    "not returned". *)
Definition passes (query item : dict) : bool :=
  match item_passes item query with
  | Ok true => true
  | _ => false
  end.

Lemma ops_loop_true_iff (v : value) (ops : dict) :
  ops_loop v ops = Ok true <->
  Forall (fun kv => op_holds v (fst kv) (snd kv) = Ok true) ops.
Proof.
  induction ops as [| [op op_value] ops IH]; simpl.
  - split; [constructor | reflexivity].
  - destruct (op_holds v op op_value) as [[|] | e] eqn:Hop; simpl.
    + rewrite IH. split.
      * intros H. now constructor.
      * intros H. now inversion H.
    + split; [discriminate |]. intros H. inversion H; subst. simpl in *. congruence.
    + split; [discriminate |]. intros H. inversion H; subst. simpl in *. congruence.
Qed.

Lemma keys_loop_true (item query : dict) :
  forall matched,
    keys_loop item query matched = Ok true <->
    matched = true /\
    (forall key clause, In (key, clause) query ->
       exists v, Dict.get key item = Some v /\ clause_holds v clause).
Proof.
  induction query as [| [k clause] query IH]; intros matched.
  - simpl. split.
    + intros H. split; [congruence | intros ? ? []].
    + intros [-> _]. reflexivity.
  - assert (Hhead : forall v, Dict.get k item = Some v -> clause_holds v clause ->
              forall key c, (k, clause) = (key, c) \/ In (key, c) query ->
              (forall key c, In (key, c) query ->
                 exists v0, Dict.get key item = Some v0 /\ clause_holds v0 c) ->
              exists v0, Dict.get key item = Some v0 /\ clause_holds v0 c).
    { intros v Hg Hc key c [Heq | Hin] Hall; [| now apply Hall].
      inversion Heq; subst. now exists v. }
    assert (Hfail : forall v, Dict.get k item = Some v -> ~ clause_holds v clause ->
              ~ (forall key c, (k, clause) = (key, c) \/ In (key, c) query ->
                   exists v0, Dict.get key item = Some v0 /\ clause_holds v0 c)).
    { intros v Hg Hn Hall.
      destruct (Hall k clause (or_introl eq_refl)) as (v' & Hv' & Hc).
      congruence. }
    cbn [keys_loop In].
    destruct (Dict.get k item) as [v |] eqn:Hg.
    + specialize (Hhead v eq_refl). specialize (Hfail v eq_refl).
      assert (Hplain : (exists ops, clause = VDict ops) \/
                (clause_holds v clause <-> String.eqb (Py.str v) (Py.str clause) = true) /\
                keys_loop item ((k, clause) :: query) matched =
                if negb (String.eqb (Py.str v) (Py.str clause)) then Ok false
                else keys_loop item query matched).
      { destruct clause; try (right; split; [reflexivity | cbn [keys_loop]; now rewrite Hg]).
        left. eauto. }
      destruct Hplain as [[ops ->] | [Hc Hk]].
      * cbn [clause_holds] in Hhead, Hfail.
        destruct (ops_loop v ops) as [[|] | e] eqn:Hops; cbn [bind].
        -- rewrite andb_true_r, IH. split.
           ++ intros [-> Hall]. split; [reflexivity |].
              intros key c Hin. now apply (Hhead eq_refl key c Hin).
           ++ intros [-> Hall]. split; [reflexivity |].
              intros key c Hin. apply Hall. now right.
        -- rewrite andb_false_r, IH. split.
           ++ intros [Hk _]. discriminate.
           ++ intros [_ Hall]. exfalso. apply Hfail; [discriminate | exact Hall].
        -- split; [discriminate |].
           intros [_ Hall]. exfalso. apply Hfail; [discriminate | exact Hall].
      * cbn [keys_loop] in Hk. rewrite Hg in Hk. rewrite Hk.
        destruct (String.eqb (Py.str v) (Py.str clause)) eqn:Hs; cbn [negb].
        -- rewrite IH. split.
           ++ intros [-> Hall]. split; [reflexivity |].
              intros key c Hin. apply (Hhead (proj2 Hc eq_refl) key c Hin Hall).
           ++ intros [-> Hall]. split; [reflexivity |].
              intros key c Hin. apply Hall. now right.
        -- split; [discriminate |].
           intros [_ Hall]. exfalso. apply Hfail; [| exact Hall].
           intros H. apply Hc in H. discriminate.
    + split; [discriminate |].
      intros [_ Hall].
      destruct (Hall k clause (or_introl eq_refl)) as (v' & Hv' & _). congruence.
Qed.

Lemma passes_iff (query item : dict) :
  passes query item = true <->
  (forall key clause, In (key, clause) query ->
     exists v, Dict.get key item = Some v /\ clause_holds v clause).
Proof.
  unfold passes, item_passes.
  destruct (keys_loop item query true) as [[|] | e] eqn:Hk.
  - apply keys_loop_true in Hk. destruct Hk as [_ Hall]. tauto.
  - split; [discriminate |]. intros Hall.
    assert (keys_loop item query true = Ok true) by (apply keys_loop_true; auto).
    congruence.
  - split; [discriminate |]. intros Hall.
    assert (keys_loop item query true = Ok true) by (apply keys_loop_true; auto).
    congruence.
Qed.

(** When the filter returns, it returns the items that pass, in order. *)
Lemma filter_loop_ok (query : dict) (items : list dict) :
  forall l, filter_loop items query = Ok l -> l = filter (passes query) items.
Proof.
  unfold passes.
  induction items as [| item items IH]; simpl; intros l H.
  - now inversion H.
  - destruct (item_passes item query) as [b | e]; simpl in H; [| discriminate].
    destruct (filter_loop items query) as [rest | e]; simpl in H; [| discriminate].
    inversion H; subst. rewrite (IH rest eq_refl). now destruct b.
Qed.

(** [read] returns a sub-list of the items that pass. *)
Lemma read_returns_passing (self : AnimalShelter) (query : dict) :
  exists l, read self (VDict query) = Ok l /\
            (l = filter (passes query) (data self) \/ l = []).
Proof.
  unfold read, _filtered_data.
  destruct (filter_loop (data self) query) as [l | e] eqn:Hf.
  - exists l. split; [reflexivity |]. left. now apply filter_loop_ok.
  - exists []. auto.
Qed.

(** ** Sample store *)

Definition rex : dict :=
  [("animal_id", VStr "A1"); ("animal_type", VStr "Dog"); ("age_upon_outcome_in_weeks", VInt 10)].

Definition tom : dict :=
  [("animal_id", VStr "A2"); ("animal_type", VStr "Cat"); ("age_upon_outcome_in_weeks", VInt 30)].

Definition fido : dict :=
  [("animal_id", VStr "A3"); ("animal_type", VStr "Dog"); ("age_upon_outcome_in_weeks", VInt 52)].

Definition shelter (items : list dict) : AnimalShelter :=
  {| csv_file_path := "aac_shelter_outcomes.csv"; data := items |}.

Definition dogs : value := VDict [("animal_type", VStr "Dog")].

(** ** delete *)

(** C1 (the code departs from it): [delete(query, multiple=False)] on a store
    with two matching records, [rex] and [fido], removes both and returns 2,
    where the claim has only [rex] removed and 1 returned. *)
Theorem delete_single_removes_every_match :
  delete (shelter [rex; tom; fido]) dogs false = Ok (2, shelter [tom]).
Proof. reflexivity. Qed.

(** The flag [multiple] is never consulted: both settings delete every
    selected record. *)
Lemma delete_ignores_multiple (self : AnimalShelter) (query : dict) (multiple : bool) :
  delete self (VDict query) multiple =
  Ok (count_selected query (data self),
      with_data self (filter (fun r => negb (selected query r)) (data self))).
Proof.
  unfold delete. now rewrite delete_loop_closed.
Qed.

(** ** Operator mappings *)

Definition age_between_1_and_5 : value :=
  VDict [("age_upon_outcome_in_weeks", VDict [("$gte", VInt 1); ("$lte", VInt 5)])].

Definition age_from_1 : value :=
  VDict [("age_upon_outcome_in_weeks", VDict [("$gte", VInt 1)])].

(** C2, as stated, fails: with [rex] aged 10 weeks, the clause
    [{$gte: 1, $lte: 5}] rejects him although its first operator alone
    accepts him, so the second operator key decides the match. *)
Lemma second_operator_decides :
  read (shelter [rex]) age_between_1_and_5 = Ok [] /\
  read (shelter [rex]) age_from_1 = Ok [rex].
Proof. split; vm_compute; reflexivity. Qed.

(** C2, amended: every operator key of an operator mapping is honored.  An
    item whose field holds [v] passes the clause exactly when each operator
    of the mapping holds for [v] (a conjunction, in the mapping's order). *)
Theorem operator_mapping_is_conjunctive (item : dict) (key : string) (v : value) (ops : dict) :
  Dict.get key item = Some v ->
  (passes [(key, VDict ops)] item = true <->
   Forall (fun kv => op_holds v (fst kv) (snd kv) = Ok true) ops).
Proof.
  intros Hg. rewrite passes_iff, <- ops_loop_true_iff. split.
  - intros H. destruct (H key (VDict ops) (or_introl eq_refl)) as (v' & Hv' & Hc).
    simpl in Hc. congruence.
  - intros H k clause [Heq | []]. inversion Heq; subst. now exists v.
Qed.

Lemma operator_mapping_is_conjunctive_witness :
  passes [("age_upon_outcome_in_weeks", VDict [("$gte", VInt 1); ("$lte", VInt 60)])] fido = true.
Proof.
  apply (operator_mapping_is_conjunctive fido "age_upon_outcome_in_weeks" (VInt 52)
           [("$gte", VInt 1); ("$lte", VInt 60)]).
  - reflexivity.
  - repeat constructor.
Defined.

(** ** Selection by update and delete *)

Definition all_str (d : dict) : bool :=
  forallb (fun kv => match snd kv with VStr _ => true | _ => false end) d.

Lemma get_all_str (d : dict) (k : string) (v : value) :
  all_str d = true -> Dict.get k d = Some v -> exists s, v = VStr s.
Proof.
  induction d as [| [k' x] d IH]; simpl; [discriminate |].
  intros H Hg. apply andb_prop in H. destruct H as [Hx Hd].
  destruct (String.eqb k k').
  - inversion Hg; subst. destruct v; try discriminate. eauto.
  - now apply IH.
Qed.

Lemma keys_loop_all_str (item query : dict) :
  all_str item = true -> all_str query = true ->
  keys_loop item query true = Ok (_item_matches_query item query).
Proof.
  intros Hi. induction query as [| [k x] query IH]; simpl; [reflexivity |].
  intros H. apply andb_prop in H. destruct H as [Hx Hq].
  destruct (Dict.get k item) as [v |] eqn:Hg; [| reflexivity].
  destruct (get_all_str item k v Hi Hg) as [t ->].
  destruct x as [| | | | s | |]; try discriminate.
  unfold Py.ne. simpl. destruct (String.eqb t s); simpl; auto.
Qed.





(** A store of dict objects, by their addresses. *)
Definition kennel (items : list InPlace.address) : InPlace.AnimalShelter :=
  {| InPlace.csv_file_path := "aac_shelter_outcomes.csv"; InPlace.data := items |}.




(** Why the objects must be distinct: a dict stored twice is patched once,
    after which it no longer matches; and a query that is itself a record of
    the store changes with that record. *)
Example update_shared_objects :
  InPlace.update (kennel [0%nat; 0%nat]) [[("animal_type", VStr "Dog")]]
    (InPlace.Val dogs) (InPlace.Val (VDict [("animal_type", VStr "Cat")])) true =
    Ok (1, [[("animal_type", VStr "Cat")]])
  /\ InPlace.update (kennel [0%nat; 1%nat])
       [[("animal_type", VStr "Dog")]; [("animal_type", VStr "Dog")]]
       (InPlace.Obj 0%nat) (InPlace.Val (VDict [("animal_type", VStr "Cat")])) true =
     Ok (1, [[("animal_type", VStr "Cat")]; [("animal_type", VStr "Dog")]]).
Proof. split; vm_compute; reflexivity. Qed.

(** ** update *)

(** C7: the count returned by [update] is not the number of records
    changed.  The store holds the one record [rex], a Dog; the call
    [update({'animal_type': 'Dog'}, {'animal_type': 'Dog'}, multiple=False)]
    returns 1 and leaves [rex] exactly as he was. *)
Theorem update_counts_unchanged_record :
  InPlace.update (kennel [0%nat]) [rex] (InPlace.Val dogs) (InPlace.Val dogs) false =
    Ok (1, [rex]).
Proof. vm_compute; reflexivity. Qed.

(** ** Numeric coercion in [$gte] and [$lte] *)

Lemma uint_text_digits (u : Decimal.uint) :
  forallb Text.is_digit
    (list_ascii_of_string (DecimalString.NilEmpty.string_of_uint u)) = true.
Proof.
  induction u; simpl; auto.
Qed.

Lemma keep_digits (l : list ascii) :
  forallb Text.is_digit l = true ->
  filter (fun c => negb (Ascii.eqb c ".")) l = l.
Proof.
  induction l as [| c l IH]; simpl; [reflexivity |].
  intros H. apply andb_prop in H. destruct H as [Hc Hl].
  destruct (Ascii.eqb c ".") eqn:E; simpl.
  - apply Ascii.eqb_eq in E. subst. discriminate.
  - now rewrite IH.
Qed.

(** The decimal text of a non-negative integer passes the digit test. *)
Lemma isdigit_of_nonneg (z : Z) : 0 <= z -> Text.isdigit (Text.remove_dots (Text.of_Z z)) = true.
Proof.
  intros Hz. unfold Text.of_Z, Text.remove_dots, Text.isdigit.
  assert (Hd : exists c l,
             list_ascii_of_string (DecimalString.NilZero.string_of_int (Z.to_int z)) = c :: l /\
             forallb Text.is_digit (c :: l) = true).
  { destruct z as [| p | p]; [| | lia].
    - exists "0"%char, []. split; reflexivity.
    - simpl. unfold DecimalString.NilZero.string_of_uint.
      pose proof (uint_text_digits (Pos.to_uint p)) as Hu.
      destruct (Pos.to_uint p) eqn:Eu;
        simpl in *; eexists; eexists; (split; [reflexivity | exact Hu]). }
  destruct Hd as (c & l & -> & Hall).
  rewrite (keep_digits _ Hall), list_ascii_of_string_of_list_ascii.
  exact Hall.
Qed.


Lemma looks_numeric_nonneg (z : Z) : 0 <= z -> looks_numeric (VInt z) = true.
Proof. intros Hz. simpl. now apply isdigit_of_nonneg. Qed.



(** A bound test that holds had both of its conversions succeed. *)
Lemma op_holds_bound_ok (v : value) (op : string) (bound : value) :
  op = "$gte" \/ op = "$lte" ->
  op_holds v op bound = Ok true ->
  (exists x, item_val v = Ok x) /\ (exists b, Py.float bound = Ok b).
Proof.
  intros [-> | ->] H; unfold op_holds in H; simpl in H;
    destruct (item_val v) as [x | e]; simpl in H;
    try (destruct e; discriminate);
    destruct (Py.float bound) as [b | e]; simpl in H;
    try (destruct e; discriminate); eauto.
Qed.



Definition age_unknown : dict :=
  [("animal_id", VStr "A4"); ("age_upon_outcome_in_weeks", VStr "unknown")].

Definition age_up_to_5 : value :=
  VDict [("age_upon_outcome_in_weeks", VDict [("$lte", VInt 5)])].

(** C5, as stated, fails: a record whose age is the text "unknown", which
    does not coerce to a number, is returned for [{age: {$lte: 5}}]. *)
Lemma unparseable_value_matches :
  Py.float (VStr "unknown") = Raise ValueError /\
  read (shelter [age_unknown]) age_up_to_5 = Ok [age_unknown].
Proof. split; vm_compute; reflexivity. Qed.

(** C5, amended: [read(query)] never raises for a mapping query (whatever the
    filter raises is caught and gives an empty list), and a record is not
    returned when the query names a field the record lacks, or when, in a
    [$gte] or [$lte] clause, the conversion of the bound or of a record value
    that passed the digit test fails.  A record value that does not pass the
    digit test is compared as 0 instead, and may match. *)
Theorem read_degrades_to_non_match (self : AnimalShelter) (query : dict) :
  exists l,
    read self (VDict query) = Ok l
    /\ (forall item key clause,
          In (key, clause) query -> Dict.get key item = None -> ~ In item l)
    /\ (forall item key ops op bound v e,
          In (key, VDict ops) query -> In (op, bound) ops ->
          op = "$gte" \/ op = "$lte" ->
          Dict.get key item = Some v ->
          Py.float bound = Raise e \/ item_val v = Raise e ->
          ~ In item l)
    /\ (forall v, looks_numeric v = false -> item_val v = Ok Float.zero).
Proof.
  destruct (read_returns_passing self query) as (l & Hr & Hl).
  exists l. split; [exact Hr |].
  assert (Hpass : forall item, In item l -> passes query item = true).
  { intros item Hin. destruct Hl as [-> | ->]; [| destruct Hin].
    apply filter_In in Hin. tauto. }
  split; [| split].
  - intros item key clause Hq Hg Hin.
    apply Hpass in Hin. rewrite passes_iff in Hin.
    destruct (Hin key clause Hq) as (v & Hv & _). congruence.
  - intros item key ops op bound v e Hq Hops Hop Hg Hbad Hin.
    apply Hpass in Hin. rewrite passes_iff in Hin.
    destruct (Hin key (VDict ops) Hq) as (v' & Hv' & Hc).
    assert (v' = v) by congruence. subst v'.
    cbn [clause_holds] in Hc. rewrite ops_loop_true_iff, Forall_forall in Hc.
    specialize (Hc (op, bound) Hops). simpl in Hc.
    destruct (op_holds_bound_ok v op bound Hop Hc) as ((x & Hx) & (b & Hb)).
    destruct Hbad; congruence.
  - intros v Hv. unfold item_val. now rewrite Hv.
Qed.

(** An integer bound beyond the float range: [OverflowError] leaves the
    filter, and [read] turns it into an empty result. *)
Example overflow_leaves_filter :
  _filtered_data (shelter [rex])
    [("age_upon_outcome_in_weeks", VDict [("$gte", VInt (10 ^ 400))])] = Raise OverflowError /\
  read (shelter [rex])
    (VDict [("age_upon_outcome_in_weeks", VDict [("$gte", VInt (10 ^ 400))])]) = Ok [].
Proof. split; vm_compute; reflexivity. Qed.

Definition breed_poodle : dict := [("breed", VStr "Poodle")].

Lemma read_degrades_to_non_match_witness :
  exists l, read (shelter [rex]) (VDict breed_poodle) = Ok l /\ ~ In rex l.
Proof.
  destruct (read_degrades_to_non_match (shelter [rex]) breed_poodle) as (l & Hr & Hmiss & _).
  exists l. split; [exact Hr |].
  apply (Hmiss rex "breed" (VStr "Poodle")).
  - left. reflexivity.
  - reflexivity.
Defined.









(** ** Rescue-eligibility counters *)

Definition age_of (item : dict) : value := item_get item "age_upon_outcome_in_weeks".

(** The age part of the eligibility rule: no age value, or a numeric age
    within the window. *)
Definition age_eligible (lo hi : Z) (item : dict) : bool :=
  match age_of item with
  | VNone => true
  | age =>
      match Py.float age with
      | Ok weeks => (Float.leb (float_const lo) weeks && Float.leb weeks (float_const hi))%bool
      | Raise _ => false
      end
  end.


(** The conversion of the age does not overflow: always so unless the age is
    an integer beyond the float range. *)
Definition age_fits (item : dict) : Prop := Py.float (age_of item) <> Raise OverflowError.

(** [float()] raises nothing but these three exceptions. *)
Lemma float_raises (v : value) (e : exn) :
  Py.float v = Raise e -> e = ValueError \/ e = TypeError \/ e = OverflowError.
Proof.
  assert (Hint : forall z, Float.of_int z = Raise e -> e = OverflowError).
  { intros z. unfold Float.of_int.
    destruct (binary_normalize Float.prec Float.emax z 0 false); congruence. }
  destruct v as [| b | z | f | s | l | d]; simpl; intros H;
    try (inversion H; subst; tauto); try (apply Hint in H; tauto).
  unfold Float.of_string in H.
  destruct (Float.drop_underscores _ _) as [l |]; [| inversion H; tauto].
  destruct (Float.split_sign l) as [sg l'].
  destruct (Float.parse_special sg l'); [discriminate |].
  destruct (Float.parse_decimal sg l'); [discriminate |].
  inversion H; tauto.
Qed.

Lemma age_increment_closed (lo hi : Z) (item : dict) :
  age_fits item ->
  age_increment lo hi item = Ok (if age_eligible lo hi item then 1 else 0).
Proof.
  unfold age_fits, age_increment, age_eligible, age_of. intros Hfit.
  destruct (item_get item "age_upon_outcome_in_weeks") as [| b | z | f | s | l | d] eqn:Ha;
    try reflexivity;
    match goal with
    | |- context [Py.float ?a] =>
        destruct (Py.float a) as [w | e] eqn:Hf;
        [ now destruct (_ && _)%bool
        | destruct (float_raises _ _ Hf) as [-> | [-> | ->]];
          [ reflexivity | reflexivity | now destruct Hfit ] ]
    end.
Qed.

Lemma count_loop_closed (breeds : list value) (sex : string) (lo hi : Z) (items : list dict) :
  Forall age_fits items ->
  forall count,
    count_loop breeds sex lo hi items count =
    Ok (count + Z.of_nat (List.length
          (filter (fun item => (profile_ok breeds sex item && age_eligible lo hi item)%bool)
                  items))).
Proof.
  induction 1 as [| item items Hfit _ IH]; intros count; simpl.
  - now rewrite Z.add_0_r.
  - destruct (profile_ok breeds sex item); simpl.
    + rewrite (age_increment_closed lo hi item Hfit). simpl. rewrite IH.
      destruct (age_eligible lo hi item); simpl List.length; f_equal; lia.
    + apply IH.
Qed.


Definition labrador (age : value) : dict :=
  [("animal_type", VStr "Dog"); ("breed", VStr "Labrador Retriever Mix");
   ("sex_upon_outcome", VStr "Intact Female"); ("age_upon_outcome_in_weeks", age)].


(** The conversion of the age overflows: the age is an integer beyond the
    float range. *)
Definition age_overflows (item : dict) : bool :=
  match Py.float (age_of item) with
  | Raise OverflowError => true
  | _ => false
  end.

(** The age check in closed form, overflow included. *)
Lemma age_increment_cases (lo hi : Z) (item : dict) :
  age_increment lo hi item =
  if age_overflows item then Raise OverflowError
  else Ok (if age_eligible lo hi item then 1 else 0).
Proof.
  unfold age_increment, age_eligible, age_overflows, age_of.
  destruct (item_get item "age_upon_outcome_in_weeks") as [| b | z | f | s | l | d] eqn:Ha;
    try reflexivity;
    match goal with
    | |- context [Py.float ?a] =>
        destruct (Py.float a) as [w | e] eqn:Hf;
        [ now destruct (_ && _)%bool
        | destruct (float_raises _ _ Hf) as [-> | [-> | ->]]; reflexivity ]
    end.
Qed.

(** The loop of the counters in closed form: it raises [OverflowError] when
    a record that passes the type, breed and sex test has an overflowing
    age, and returns the number of eligible records otherwise. *)
Lemma count_loop_cases (breeds : list value) (sex : string) (lo hi : Z) (items : list dict) :
  forall count,
    count_loop breeds sex lo hi items count =
    if existsb (fun item => (profile_ok breeds sex item && age_overflows item)%bool) items
    then Raise OverflowError
    else Ok (count + Z.of_nat (List.length
               (filter (fun item => (profile_ok breeds sex item && age_eligible lo hi item)%bool)
                       items))).
Proof.
  induction items as [| item items IH]; intros count; simpl.
  - now rewrite Z.add_0_r.
  - destruct (profile_ok breeds sex item); simpl.
    + rewrite age_increment_cases.
      destruct (age_overflows item); simpl; [reflexivity |].
      rewrite IH. destruct (existsb _ items); [reflexivity |].
      destruct (age_eligible lo hi item); simpl List.length; f_equal; lia.
    + apply IH.
Qed.






(** An integer age beyond the float range is not caught by the counter. *)
Example overflowing_age_raises :
  _count_water_rescue_dogs [labrador (VInt (10 ^ 400))] = Raise OverflowError.
Proof. vm_compute; reflexivity. Qed.







End ArtifactOneSpec.

(** * Properties of Artifact Three *)

Module ArtifactThreeSpec.

Import ArtifactThree.

Local Open Scope list_scope.

(** A shelter whose connection failed at construction: demo mode. *)
Definition demo : AnimalShelter :=
  {| connection_successful := false; auth_enabled := false; collection := None |}.

(** A stand-in for [json.dumps]. *)
Definition dumps (query : value) : res string := Ok (Py.repr query).

Definition cats : dict := [("animal_type", VStr "Cat")].

(** The dicts of a list value. *)
Definition records (v : value) : list dict :=
  match v with
  | VList l =>
      flat_map (fun x => match x with VDict d => [d] | _ => [] end) l
  | _ => []
  end.

(** ** Reads in demo mode *)

(** C4, as stated, fails: in demo mode [read({animal_type: Cat})] returns
    all seven canned records, the first of which is a dog that the query
    filter rejects; one canned record alone passes that filter. *)
Lemma demo_read_returns_non_matching :
  read dumps demo (VDict cats) "analyst" = mock_data
  /\ List.length (records (read dumps demo (VDict cats) "analyst")) = 7%nat
  /\ (exists item rest,
        records (read dumps demo (VDict cats) "analyst") = item :: rest /\
        Dict.get "animal_type" item = Some (VStr "Dog") /\
        ArtifactOne.item_passes item cats = Ok false)
  /\ List.length
       (filter (ArtifactOneSpec.passes cats)
               (records (read dumps demo (VDict cats) "analyst"))) = 1%nat.
Proof.
  split; [| split; [| split]].
  - reflexivity.
  - vm_compute; reflexivity.
  - eexists. eexists. split; [vm_compute; reflexivity |].
    split; vm_compute; reflexivity.
  - vm_compute; reflexivity.
Qed.

(** C4, amended: when the backing store is unavailable, [read(query)]
    returns the whole canned dataset of [read_without_auth], whatever the
    query is; no filter is applied. *)
Theorem demo_read_is_unfiltered
    (json_dumps : value -> res string) (self : AnimalShelter)
    (query : value) (username : string) :
  connection_successful self = false ->
  read json_dumps self query username = mock_data.
Proof.
  intros Hc. unfold read, read_without_auth. now rewrite Hc.
Qed.

Lemma demo_read_is_unfiltered_witness :
  read dumps demo (VDict cats) "analyst" = mock_data.
Proof.
  apply (demo_read_is_unfiltered dumps demo (VDict cats) "analyst").
  reflexivity.
Defined.

(** ** Analytics in demo mode *)

(** C9: when the backing store is unavailable, each aggregation operation
    returns its canned payload: any two calls, on any two unavailable
    shelters and with any arguments, return the same value. *)
Theorem demo_analytics_are_constant (self self' : AnimalShelter) (months months' : value) :
  connection_successful self = false ->
  connection_successful self' = false ->
  (get_breed_performance_metrics self = _get_mock_breed_performance /\
   get_breed_performance_metrics self = get_breed_performance_metrics self')
  /\ (get_rescue_type_analytics self = _get_mock_rescue_analytics /\
      get_rescue_type_analytics self = get_rescue_type_analytics self')
  /\ (get_monthly_adoption_trends self months = _get_mock_adoption_trends /\
      get_monthly_adoption_trends self months = get_monthly_adoption_trends self' months')
  /\ (get_animal_demographics self = _get_mock_demographics /\
      get_animal_demographics self = get_animal_demographics self').
Proof.
  intros Hc Hc'.
  unfold get_breed_performance_metrics, get_rescue_type_analytics,
    get_monthly_adoption_trends, get_animal_demographics.
  rewrite Hc, Hc'. simpl. repeat split; reflexivity.
Qed.

Lemma demo_analytics_are_constant_witness :
  get_monthly_adoption_trends demo (VInt 12) = get_monthly_adoption_trends demo (VInt 3).
Proof.
  destruct (demo_analytics_are_constant demo demo (VInt 12) (VInt 3) eq_refl eq_refl)
    as (_ & _ & (_ & H) & _).
  exact H.
Defined.

End ArtifactThreeSpec.

(** * Further properties of Artifact One *)

Module ArtifactOneExtra.

Import ArtifactOne ArtifactOneSpec.

Local Open Scope list_scope.

(** ** Reads *)

Lemma filter_loop_empty_query (items : list dict) : filter_loop items [] = Ok items.
Proof.
  induction items as [| item items IH]; simpl; [reflexivity |].
  unfold item_passes. simpl. now rewrite IH.
Qed.

(** X1: the empty query selects everything: [read({})] returns the whole
    store, in its order. *)
Theorem read_empty_query_returns_all (self : AnimalShelter) :
  read self (VDict []) = Ok (data self).
Proof.
  unfold read, _filtered_data. now rewrite filter_loop_empty_query.
Qed.

(** A query without operator mappings. *)
Definition is_plain (query : dict) : bool :=
  forallb (fun kv => match snd kv with VDict _ => false | _ => true end) query.

(** Every queried field is in the item with the same text. *)
Definition same_text (query item : dict) : bool :=
  forallb
    (fun kv =>
       match Dict.get (fst kv) item with
       | Some v => String.eqb (Py.str v) (Py.str (snd kv))
       | None => false
       end)
    query.

Lemma keys_loop_plain (item query : dict) :
  is_plain query = true -> keys_loop item query true = Ok (same_text query item).
Proof.
  induction query as [| [k x] query IH]; simpl; [reflexivity |].
  intros H. apply andb_prop in H. destruct H as [Hx Hq].
  destruct (Dict.get k item) as [v |]; [| reflexivity].
  destruct x; try discriminate;
    (destruct (String.eqb (Py.str v) _); simpl; [now apply IH | reflexivity]).
Qed.

Lemma filter_loop_plain (query : dict) (items : list dict) :
  is_plain query = true -> filter_loop items query = Ok (filter (same_text query) items).
Proof.
  intros Hq. induction items as [| item items IH]; simpl; [reflexivity |].
  unfold item_passes. rewrite (keys_loop_plain item query Hq), IH. simpl.
  now destruct (same_text query item).
Qed.

(** X2: for a query of plain values (no operator mapping) the filter never
    raises, and [read] returns exactly the records that have every queried
    field with the same [str] text as the query, in store order. *)
Theorem read_plain_query (self : AnimalShelter) (query : dict) :
  is_plain query = true ->
  _filtered_data self query = Ok (filter (same_text query) (data self)) /\
  read self (VDict query) = Ok (filter (same_text query) (data self)).
Proof.
  intros Hq. unfold read, _filtered_data. now rewrite (filter_loop_plain query _ Hq).
Qed.

Lemma read_plain_query_witness :
  read (shelter [rex; tom; fido]) dogs = Ok (filter (same_text [("animal_type", VStr "Dog")]) [rex; tom; fido]).
Proof.
  apply (read_plain_query (shelter [rex; tom; fido]) [("animal_type", VStr "Dog")]).
  reflexivity.
Defined.

(** X3: whatever the query, [read] returns a selection of the store: records
    of the store, in store order, each of which passes the filter. *)
Theorem read_returns_ordered_selection (self : AnimalShelter) (query : dict) :
  exists keep : dict -> bool,
    read self (VDict query) = Ok (filter keep (data self)) /\
    (forall item, keep item = true -> passes query item = true).
Proof.
  destruct (read_returns_passing self query) as (l & Hr & [-> | ->]).
  - exists (passes query). split; [exact Hr | auto].
  - exists (fun _ => false). split; [| discriminate].
    rewrite Hr. f_equal. induction (data self); simpl; auto.
Qed.

(** X4: a query is the conjunction of its clauses: an item passes two
    queries put together exactly when it passes each of them. *)
Theorem passes_app (query1 query2 item : dict) :
  passes (query1 ++ query2) item = (passes query1 item && passes query2 item)%bool.
Proof.
  apply eq_true_iff_eq. rewrite andb_true_iff, !passes_iff. split.
  - intros H. split; intros key clause Hin; apply H; apply in_or_app; auto.
  - intros [H1 H2] key clause Hin. apply in_app_or in Hin. destruct Hin; auto.
Qed.

(** ** create *)

Lemma get_of_in (d : dict) (k : string) (v : value) :
  NoDup (map fst d) -> In (k, v) d -> Dict.get k d = Some v.
Proof.
  induction d as [| [k' v'] d IH]; simpl; [intros _ [] |].
  intros Hnd [Heq | Hin]; inversion Hnd as [| ? ? Hk Hd]; subst.
  - inversion Heq; subst. now rewrite String.eqb_refl.
  - destruct (String.eqb k k') eqn:E.
    + apply String.eqb_eq in E. subst. destruct Hk.
      change k' with (fst (k', v)). now apply in_map.
    + now apply IH.
Qed.

Lemma same_text_self (d : dict) : NoDup (map fst d) -> same_text d d = true.
Proof.
  intros Hnd. unfold same_text. apply forallb_forall. intros [k v] Hin. simpl.
  rewrite (get_of_in d k v Hnd Hin). apply String.eqb_refl.
Qed.

(** X5: [create] appends: after [create(record)] the store read back with
    the empty query is the old store followed by the record. *)
Theorem create_appends (self : AnimalShelter) (record : dict) :
  exists self',
    create self (VDict record) = Ok (true, self') /\
    read self' (VDict []) = Ok (data self ++ [record]).
Proof.
  eexists. split; [reflexivity |].
  unfold read, _filtered_data. now rewrite filter_loop_empty_query.
Qed.

(** X6: a created record is found again: reading with the record itself as
    the query returns it, provided its keys are distinct and none of its
    values is a dict (which would be taken for an operator mapping). *)
Theorem create_then_read_finds (self : AnimalShelter) (record : dict) :
  NoDup (map fst record) -> is_plain record = true ->
  exists self' found,
    create self (VDict record) = Ok (true, self') /\
    read self' (VDict record) = Ok found /\
    In record found.
Proof.
  intros Hnd Hp. eexists. eexists. split; [reflexivity |]. split.
  - unfold read, _filtered_data. now rewrite (filter_loop_plain record _ Hp).
  - simpl. apply filter_In. split.
    + apply in_or_app. right. now left.
    + now apply same_text_self.
Qed.

Lemma create_then_read_finds_witness :
  exists self' found,
    create (shelter [rex]) (VDict tom) = Ok (true, self') /\
    read self' (VDict tom) = Ok found /\ In tom found.
Proof.
  apply (create_then_read_finds (shelter [rex]) tom).
  - repeat constructor; simpl; intuition discriminate.
  - reflexivity.
Defined.

(** ** delete *)

Lemma with_data_same (self : AnimalShelter) : with_data self (data self) = self.
Proof. now destruct self. Qed.

Lemma filter_split_length {A : Type} (f : A -> bool) (l : list A) :
  (List.length (filter f l) + List.length (filter (fun x => negb (f x)) l) =
   List.length l)%nat.
Proof.
  induction l as [| x l IH]; simpl; [reflexivity |].
  destruct (f x); simpl; lia.
Qed.

Lemma filter_none {A : Type} (f : A -> bool) (l : list A) :
  Forall (fun x => f x = false) l -> filter f l = [].
Proof.
  induction 1 as [| x l Hx _ IH]; simpl; [reflexivity |]. now rewrite Hx.
Qed.

Lemma filter_all {A : Type} (f : A -> bool) (l : list A) :
  Forall (fun x => f x = true) l -> filter f l = l.
Proof.
  induction 1 as [| x l Hx _ IH]; simpl; [reflexivity |]. now rewrite Hx, IH.
Qed.

Lemma unselected_left (query : dict) (items : list dict) :
  Forall (fun r => selected query r = false)
         (filter (fun r => negb (selected query r)) items).
Proof.
  apply Forall_forall. intros r Hin. apply filter_In in Hin.
  destruct Hin as [_ Hn]. now destruct (selected query r).
Qed.

(** X7: what [delete] leaves behind, for either setting of [multiple]: the
    store shrinks by exactly the returned count, the records kept are the
    unselected ones in their order, none of them is selected by the query,
    and deleting again with the same query removes nothing. *)
Theorem delete_postconditions (self : AnimalShelter) (query : dict) (multiple : bool) :
  exists n self',
    delete self (VDict query) multiple = Ok (n, self') /\
    0 <= n /\
    Z.of_nat (List.length (data self')) + n = Z.of_nat (List.length (data self)) /\
    data self' = filter (fun r => negb (selected query r)) (data self) /\
    Forall (fun r => selected query r = false) (data self') /\
    delete self' (VDict query) multiple = Ok (0, self').
Proof.
  eexists. eexists. split; [apply delete_ignores_multiple |].
  pose proof (unselected_left query (data self)) as Hleft.
  assert (Hd : forall d, data (with_data self d) = d) by reflexivity.
  rewrite Hd. unfold count_selected. split; [| split; [| split; [| split]]].
  - lia.
  - pose proof (filter_split_length (selected query) (data self)). lia.
  - reflexivity.
  - exact Hleft.
  - rewrite delete_ignores_multiple, Hd. unfold count_selected.
    rewrite (filter_none _ _ Hleft). cbn [List.length Z.of_nat]. do 2 f_equal.
    unfold with_data. cbn [csv_file_path]. f_equal. apply filter_all.
    revert Hleft. apply Forall_impl. intros r ->. reflexivity.
Qed.

(** ** update *)



(** *** How the patch is merged into a record *)








(** ** Single-operator clauses *)

Lemma filter_loop_closed (query : dict) (test : dict -> bool) (items : list dict) :
  (forall item, item_passes item query = Ok (test item)) ->
  filter_loop items query = Ok (filter test items).
Proof.
  intros H. induction items as [| item items IH]; simpl; [reflexivity |].
  rewrite H, IH. simpl. now destruct (test item).
Qed.

(** X10: for listed values that are equal to themselves (none of them holds
    a NaN), [{field: {$in: [x1, ..., xn]}}] selects the records whose field
    is present and equal ([==], no string normalisation) to one of the
    listed values, among them every record whose field holds one of the
    listed values; the filter does not raise on it. *)
Theorem read_in_list (self : AnimalShelter) (field : string) (allowed : list value) :
  Forall (fun x => Py.eq x x = true) allowed ->
  read self (VDict [(field, VDict [("$in", VList allowed)])]) =
  Ok (filter
        (fun item =>
           match Dict.get field item with
           | Some v => existsb (Py.eq v) allowed
           | None => false
           end)
        (data self))
  /\ (forall item v,
        In item (data self) -> Dict.get field item = Some v -> In v allowed ->
        exists found,
          read self (VDict [(field, VDict [("$in", VList allowed)])]) = Ok found
          /\ In item found).
Proof.
  intros Hself.
  assert (Hread :
    read self (VDict [(field, VDict [("$in", VList allowed)])]) =
    Ok (filter
          (fun item =>
             match Dict.get field item with
             | Some v => existsb (Py.eq v) allowed
             | None => false
             end)
          (data self))).
  { unfold read, _filtered_data.
    rewrite (filter_loop_closed _
               (fun item =>
                  match Dict.get field item with
                  | Some v => existsb (Py.eq v) allowed
                  | None => false
                  end)); [reflexivity |].
    intros item. unfold item_passes. simpl.
    destruct (Dict.get field item) as [v |]; [| reflexivity].
    now destruct (existsb (Py.eq v) allowed). }
  split; [exact Hread |].
  intros item v Hin Hg Hv. eexists. split; [exact Hread |].
  apply filter_In. split; [exact Hin |]. rewrite Hg.
  apply existsb_exists. exists v. split; [exact Hv |].
  rewrite Forall_forall in Hself. now apply Hself.
Qed.

Lemma read_in_list_witness :
  read (shelter [rex; tom; fido])
    (VDict [("animal_type", VDict [("$in", VList [VStr "Cat"; VStr "Bird"])])]) = Ok [tom].
Proof.
  destruct (read_in_list (shelter [rex; tom; fido]) "animal_type" [VStr "Cat"; VStr "Bird"])
    as [H _].
  - repeat constructor.
  - rewrite H. reflexivity.
Defined.

(** X11: an operator other than [$in], [$gte] and [$lte] (for instance
    [$ne] or [$exists]) is not interpreted: the clause selects the records
    whose field has the same [str] text as the operator's value. *)
Theorem read_unknown_operator (self : AnimalShelter) (field op : string) (operand : value) :
  op <> "$in" -> op <> "$gte" -> op <> "$lte" ->
  read self (VDict [(field, VDict [(op, operand)])]) =
  Ok (filter
        (fun item =>
           match Dict.get field item with
           | Some v => String.eqb (Py.str v) (Py.str operand)
           | None => false
           end)
        (data self)).
Proof.
  intros H1 H2 H3. apply String.eqb_neq in H1, H2, H3.
  unfold read, _filtered_data.
  rewrite (filter_loop_closed _
             (fun item =>
                match Dict.get field item with
                | Some v => String.eqb (Py.str v) (Py.str operand)
                | None => false
                end)); [reflexivity |].
  intros item. unfold item_passes. cbn [keys_loop ops_loop].
  destruct (Dict.get field item) as [v |]; [| reflexivity].
  unfold op_holds. rewrite H1, H2, H3. cbn [bind].
  now destruct (String.eqb (Py.str v) (Py.str operand)).
Qed.

Lemma read_unknown_operator_witness :
  read (shelter [rex; tom])
       (VDict [("animal_type", VDict [("$ne", VStr "Dog")])]) =
  Ok (filter
        (fun item =>
           match Dict.get "animal_type" item with
           | Some v => String.eqb (Py.str v) (Py.str (VStr "Dog"))
           | None => false
           end)
        [rex; tom]).
Proof.
  apply (read_unknown_operator (shelter [rex; tom]) "animal_type" "$ne" (VStr "Dog"));
    discriminate.
Defined.

(** ** Text-only stores: delete removes what read returns *)

Lemma same_text_selected (query item : dict) :
  all_str item = true -> all_str query = true ->
  same_text query item = selected query item.
Proof.
  intros Hi Hq.
  assert (Hp : is_plain query = true).
  { unfold is_plain, all_str in *. rewrite forallb_forall in *.
    intros kv Hin. specialize (Hq kv Hin). now destruct (snd kv). }
  pose proof (keys_loop_plain item query Hp) as H1.
  pose proof (keys_loop_all_str item query Hi Hq) as H2.
  unfold selected. congruence.
Qed.

(** X26: on a store of text-only records, with a text-only query, [delete]
    removes exactly the records [read] returns: the count is their number,
    the store afterwards holds the others in order, and reading it again
    with the same query returns nothing. *)
Theorem delete_removes_what_read_returns
    (self : AnimalShelter) (query : dict) (multiple : bool) :
  Forall (fun r => all_str r = true) (data self) -> all_str query = true ->
  exists found n self',
    read self (VDict query) = Ok found /\
    delete self (VDict query) multiple = Ok (n, self') /\
    n = Z.of_nat (List.length found) /\
    found = filter (selected query) (data self) /\
    data self' = filter (fun r => negb (selected query r)) (data self) /\
    read self' (VDict query) = Ok [].
Proof.
  intros Hall Hq.
  assert (Hp : is_plain query = true).
  { unfold is_plain, all_str in *. rewrite forallb_forall in *.
    intros kv Hin. specialize (Hq kv Hin). now destruct (snd kv). }
  assert (Hsame : forall items, Forall (fun r => all_str r = true) items ->
            filter (same_text query) items = filter (selected query) items).
  { intros items Hi. apply filter_ext_in. intros r Hr.
    rewrite Forall_forall in Hi. now apply same_text_selected; [apply Hi |]. }
  exists (filter (selected query) (data self)).
  eexists. eexists. split; [| split; [apply delete_ignores_multiple |]].
  - unfold read, _filtered_data. now rewrite (filter_loop_plain query _ Hp), Hsame.
  - split; [reflexivity |]. split; [reflexivity |]. split; [reflexivity |].
    unfold read, _filtered_data. cbn [data with_data].
    rewrite (filter_loop_plain query _ Hp), Hsame.
    + f_equal. apply filter_none. apply unselected_left.
    + apply Forall_forall. intros r Hr. apply filter_In in Hr.
      rewrite Forall_forall in Hall. now apply Hall.
Qed.

Definition text_rex : dict := [("name", VStr "Rex"); ("animal_type", VStr "Dog")].
Definition text_tom : dict := [("name", VStr "Tom"); ("animal_type", VStr "Cat")].

Lemma delete_removes_what_read_returns_witness :
  exists found n self',
    read (shelter [text_rex; text_tom]) dogs = Ok found /\
    delete (shelter [text_rex; text_tom]) dogs false = Ok (n, self') /\
    n = Z.of_nat (List.length found) /\
    found = filter (selected [("animal_type", VStr "Dog")]) [text_rex; text_tom] /\
    data self' = filter (fun r => negb (selected [("animal_type", VStr "Dog")] r))
                        [text_rex; text_tom] /\
    read self' dogs = Ok [].
Proof.
  apply (delete_removes_what_read_returns (shelter [text_rex; text_tom])
           [("animal_type", VStr "Dog")] false).
  - repeat constructor.
  - reflexivity.
Defined.

(** ** Integer ages and integer bounds *)

Lemma digits2_bounds (p : positive) :
  2 ^ (Z.pos (digits2_pos p) - 1) <= Z.pos p < 2 ^ Z.pos (digits2_pos p).
Proof.
  induction p as [p IH | p IH |]; simpl digits2_pos.
  - rewrite Pos2Z.inj_succ.
    replace (Z.succ (Z.pos (digits2_pos p)) - 1) with (Z.succ (Z.pos (digits2_pos p) - 1)) by lia.
    rewrite !Z.pow_succ_r by lia. lia.
  - rewrite Pos2Z.inj_succ.
    replace (Z.succ (Z.pos (digits2_pos p)) - 1) with (Z.succ (Z.pos (digits2_pos p) - 1)) by lia.
    rewrite !Z.pow_succ_r by lia. lia.
  - simpl. lia.
Qed.

Lemma iter_xO_digits (p n : positive) :
  digits2_pos (Pos.iter xO p n) = (digits2_pos p + n)%positive.
Proof.
  induction n as [| n IH] using Pos.peano_ind.
  - simpl. lia.
  - rewrite Pos.iter_succ. simpl. rewrite IH. lia.
Qed.

Lemma iter_xO_value (p n : positive) :
  Z.pos (Pos.iter xO p n) = Z.pos p * 2 ^ Z.pos n.
Proof.
  induction n as [| n IH] using Pos.peano_ind.
  - simpl. lia.
  - rewrite Pos.iter_succ, Pos2Z.inj_succ, Z.pow_succ_r by lia.
    rewrite Pos2Z.inj_xO, IH. lia.
Qed.


Lemma fexp_at (d e : Z) : -1074 <= d + e - 53 -> fexp 53 1024 (d + e) = d + e - 53.
Proof. unfold fexp, emin. intros H. apply Z.max_l. lia. Qed.

Lemma round_aux_exact (m : positive) (e : Z) :
  Z.pos (digits2_pos m) = 53 -> -1074 <= e <= 971 ->
  binary_round_aux 53 1024 false (Z.pos m) e loc_Exact = S754_finite false m e.
Proof.
  intros Hd He. unfold binary_round_aux, shr_fexp. cbn [Zdigits2 shr_record_of_loc].
  rewrite Hd, (fexp_at 53 e) by lia.
  replace (53 + e - 53 - e) with 0 by lia. cbn [shr shr_m loc_of_shr_record round_nearest_even Zdigits2 shr_record_of_loc].
  rewrite Hd, (fexp_at 53 e) by lia.
  replace (53 + e - 53 - e) with 0 by lia. cbn [shr shr_m].
  destruct (Z.leb_spec e (1024 - 53)); [reflexivity | lia].
Qed.

(** The float of a positive integer below [2^53]: the integer itself, its
    mantissa shifted up to 53 bits. *)
Definition small_float (p : positive) : spec_float :=
  match 53 - Z.pos (digits2_pos p) with
  | Z.pos n => S754_finite false (Pos.iter xO p n) (- Z.pos n)
  | _ => S754_finite false p 0
  end.

Lemma digits_small (p : positive) : Z.pos p < 2 ^ 53 -> Z.pos (digits2_pos p) <= 53.
Proof.
  intros Hp. pose proof (digits2_bounds p) as Hd.
  destruct (Z_le_gt_dec (Z.pos (digits2_pos p)) 53) as [H | H]; [exact H |].
  assert (2 ^ 53 <= 2 ^ (Z.pos (digits2_pos p) - 1)) by (apply Z.pow_le_mono_r; lia). lia.
Qed.

Lemma of_int_small (p : positive) :
  Z.pos p < 2 ^ 53 -> Float.of_int (Z.pos p) = Ok (small_float p).
Proof.
  intros Hp. pose proof (digits_small p Hp) as Hle.
  unfold Float.of_int, binary_normalize, binary_round, small_float, Float.prec, Float.emax.
  rewrite (fexp_at (Z.pos (digits2_pos p)) 0) by lia.
  unfold shl_align. rewrite Z.add_0_r, Z.sub_0_r.
  destruct (Z.pos (digits2_pos p) - 53) as [| q | q] eqn:E.
  - replace (53 - Z.pos (digits2_pos p)) with 0 by lia.
    rewrite round_aux_exact; [reflexivity | lia | lia].
  - lia.
  - replace (53 - Z.pos (digits2_pos p)) with (Z.pos q) by lia.
    rewrite round_aux_exact; [reflexivity | | lia].
    rewrite iter_xO_digits. lia.
Qed.

Lemma small_float_shape (p : positive) :
  Z.pos p < 2 ^ 53 ->
  exists m,
    small_float p = S754_finite false m (Z.pos (digits2_pos p) - 53) /\
    Z.pos m = Z.pos p * 2 ^ (53 - Z.pos (digits2_pos p)).
Proof.
  intros Hp. pose proof (digits_small p Hp) as Hle. unfold small_float.
  destruct (53 - Z.pos (digits2_pos p)) as [| n | n] eqn:E; try lia.
  - exists p. split; [f_equal; lia | simpl; lia].
  - exists (Pos.iter xO p n). split; [f_equal; lia | apply iter_xO_value].
Qed.

Lemma small_float_ltb (p q : positive) :
  Z.pos p < 2 ^ 53 -> Z.pos q < 2 ^ 53 ->
  SFltb (small_float p) (small_float q) = (Z.pos p <? Z.pos q).
Proof.
  intros Hp Hq.
  destruct (small_float_shape p Hp) as (m & -> & Hm).
  destruct (small_float_shape q Hq) as (n & -> & Hn).
  pose proof (digits2_bounds p) as Bp. pose proof (digits2_bounds q) as Bq.
  pose proof (digits_small p Hp) as Lp. pose proof (digits_small q Hq) as Lq.
  set (dp := Z.pos (digits2_pos p)) in *. set (dq := Z.pos (digits2_pos q)) in *.
  unfold SFltb, SFcompare.
  destruct (Z.compare_spec (dp - 53) (dq - 53)) as [E | E | E].
  - assert (dp = dq) by lia.
    rewrite Pos.compare_cont_spec. simpl.
    change (m ?= n)%positive with (Z.pos m ?= Z.pos n). rewrite Hm, Hn.
    replace dq with dp by lia.
    assert (0 < 2 ^ (53 - dp)) by (apply Z.pow_pos_nonneg; lia).
    destruct (Z.ltb_spec (Z.pos p) (Z.pos q)) as [L | L].
    + assert (Z.pos p * 2 ^ (53 - dp) < Z.pos q * 2 ^ (53 - dp)) by nia.
      now rewrite (proj2 (Z.compare_lt_iff _ _)).
    + destruct (Z.compare_spec (Z.pos p * 2 ^ (53 - dp)) (Z.pos q * 2 ^ (53 - dp)));
        try reflexivity. nia.
  - assert (2 ^ dp <= 2 ^ (dq - 1)) by (apply Z.pow_le_mono_r; lia).
    symmetry. apply Z.ltb_lt. lia.
  - assert (2 ^ dq <= 2 ^ (dp - 1)) by (apply Z.pow_le_mono_r; lia).
    symmetry. apply Z.ltb_ge. lia.
Qed.


Lemma of_int_ltb (a b : Z) :
  0 <= a < 2 ^ 53 -> 0 <= b < 2 ^ 53 ->
  exists fa fb,
    Float.of_int a = Ok fa /\ Float.of_int b = Ok fb /\
    Float.ltb fa fb = (a <? b).
Proof.
  intros [Ha0 Ha] [Hb0 Hb]. unfold Float.ltb.
  destruct a as [| p | p]; [| | contradiction Ha0; reflexivity];
    (destruct b as [| q | q]; [| | contradiction Hb0; reflexivity]).
  - exists (S754_zero false), (S754_zero false).
    split; [reflexivity |]. split; reflexivity.
  - destruct (small_float_shape q Hb) as (n & Hs & _).
    exists (S754_zero false), (small_float q).
    split; [reflexivity |]. split; [apply of_int_small; exact Hb |].
    rewrite Hs. reflexivity.
  - destruct (small_float_shape p Ha) as (m & Hs & _).
    exists (small_float p), (S754_zero false).
    split; [apply of_int_small; exact Ha |]. split; [reflexivity |].
    rewrite Hs. reflexivity.
  - exists (small_float p), (small_float q).
    split; [apply of_int_small; exact Ha |]. split; [apply of_int_small; exact Hb |].
    apply small_float_ltb; assumption.
Qed.

Lemma op_holds_gte (v bound : value) :
  op_holds v "$gte" bound =
  except_value_type
    (iv <- item_val v ;; ov <- Py.float bound ;; Ok (negb (Float.ltb iv ov))).
Proof. reflexivity. Qed.

Lemma op_holds_lte (v bound : value) :
  op_holds v "$lte" bound =
  except_value_type
    (iv <- item_val v ;; ov <- Py.float bound ;; Ok (negb (Float.ltb ov iv))).
Proof. reflexivity. Qed.

Lemma item_val_small_int (a : Z) : 0 <= a -> item_val (VInt a) = Float.of_int a.
Proof.
  intros Ha. unfold item_val. now rewrite (looks_numeric_nonneg a Ha).
Qed.

Lemma op_holds_gte_int (a lo : Z) :
  0 <= a < 2 ^ 53 -> 0 <= lo < 2 ^ 53 ->
  op_holds (VInt a) "$gte" (VInt lo) = Ok (lo <=? a).
Proof.
  intros Ha Hlo. destruct (of_int_ltb a lo Ha Hlo) as (fa & fl & Ea & El & Hlt).
  rewrite op_holds_gte, item_val_small_int by apply Ha.
  cbn [Py.float]. rewrite Ea, El. cbn [bind except_value_type].
  now rewrite Hlt, Z.leb_antisym.
Qed.

Lemma op_holds_lte_int (a hi : Z) :
  0 <= a < 2 ^ 53 -> 0 <= hi < 2 ^ 53 ->
  op_holds (VInt a) "$lte" (VInt hi) = Ok (a <=? hi).
Proof.
  intros Ha Hhi. destruct (of_int_ltb hi a Hhi Ha) as (fh & fa & Eh & Ea & Hlt).
  rewrite op_holds_lte, item_val_small_int by apply Ha.
  cbn [Py.float]. rewrite Ea, Eh. cbn [bind except_value_type].
  now rewrite Hlt, Z.leb_antisym.
Qed.

(** The field, where present, holds an integer from 0 to below [2^53]. *)
Definition small_int_field (field : string) (item : dict) : Prop :=
  match Dict.get field item with
  | Some (VInt a) => 0 <= a < 2 ^ 53
  | Some _ => False
  | None => True
  end.

(** The records whose field holds an integer accepted by [test]. *)
Definition int_field_is (field : string) (test : Z -> bool) (item : dict) : bool :=
  match Dict.get field item with
  | Some (VInt a) => test a
  | _ => false
  end.

Lemma filter_loop_closed_on (query : dict) (test : dict -> bool) (items : list dict) :
  (forall item, In item items -> item_passes item query = Ok (test item)) ->
  filter_loop items query = Ok (filter test items).
Proof.
  induction items as [| item items IH]; intros H; simpl; [reflexivity |].
  rewrite (H item (or_introl eq_refl)), IH by (intros x Hx; apply H; now right).
  simpl. now destruct (test item).
Qed.

Lemma read_int_clause (self : AnimalShelter) (field : string) (ops : dict)
    (test : Z -> bool) :
  Forall (small_int_field field) (data self) ->
  (forall a, 0 <= a < 2 ^ 53 -> ops_loop (VInt a) ops = Ok (test a)) ->
  read self (VDict [(field, VDict ops)]) = Ok (filter (int_field_is field test) (data self)).
Proof.
  intros Hall Hops. unfold read, _filtered_data.
  rewrite (filter_loop_closed_on _ (int_field_is field test)); [reflexivity |].
  intros item Hin. rewrite Forall_forall in Hall. specialize (Hall item Hin).
  unfold small_int_field in Hall. unfold item_passes, int_field_is. cbn [keys_loop].
  destruct (Dict.get field item) as [[| | a | | | |] |]; try contradiction; [| reflexivity].
  rewrite (Hops a Hall). cbn [bind keys_loop]. now destruct (test a).
Qed.

(** X12: range queries on integer fields are integer comparisons.  On a
    store whose [field] values are integers from 0 to below [2^53], and for
    bounds in the same range, [{field: {$gte: lo, $lte: hi}}] returns the
    records with [lo <= value <= hi], [{field: {$gte: lo}}] those with
    [lo <= value] and [{field: {$lte: hi}}] those with [value <= hi];
    records without the field are left out. *)
Theorem read_int_range (self : AnimalShelter) (field : string) (lo hi : Z) :
  0 <= lo < 2 ^ 53 -> 0 <= hi < 2 ^ 53 ->
  Forall (small_int_field field) (data self) ->
  read self (VDict [(field, VDict [("$gte", VInt lo); ("$lte", VInt hi)])]) =
    Ok (filter (int_field_is field (fun a => (lo <=? a) && (a <=? hi))%bool) (data self))
  /\ read self (VDict [(field, VDict [("$gte", VInt lo)])]) =
    Ok (filter (int_field_is field (fun a => lo <=? a)) (data self))
  /\ read self (VDict [(field, VDict [("$lte", VInt hi)])]) =
    Ok (filter (int_field_is field (fun a => a <=? hi)) (data self)).
Proof.
  intros Hlo Hhi Hall. split; [| split]; apply read_int_clause; try exact Hall;
    intros a Ha; cbn [ops_loop].
  - rewrite (op_holds_gte_int a lo Ha Hlo). cbn [bind].
    destruct (lo <=? a); [| reflexivity].
    rewrite (op_holds_lte_int a hi Ha Hhi). cbn [bind andb]. now destruct (a <=? hi).
  - rewrite (op_holds_gte_int a lo Ha Hlo). cbn [bind]. now destruct (lo <=? a).
  - rewrite (op_holds_lte_int a hi Ha Hhi). cbn [bind]. now destruct (a <=? hi).
Qed.

Lemma read_int_range_witness :
  read (shelter [rex; tom; fido])
       (VDict [("age_upon_outcome_in_weeks", VDict [("$gte", VInt 26); ("$lte", VInt 156)])]) =
  Ok (filter (int_field_is "age_upon_outcome_in_weeks"
                (fun a => (26 <=? a) && (a <=? 156))%bool) [rex; tom; fido]).
Proof.
  apply (read_int_range (shelter [rex; tom; fido]) "age_upon_outcome_in_weeks" 26 156).
  - split; [discriminate | reflexivity].
  - split; [discriminate | reflexivity].
  - repeat constructor; discriminate.
Defined.

End ArtifactOneExtra.

(** * Properties of the export statistics *)

Module ArtifactOneStatsSpec.

Import ArtifactOne ArtifactOneStats.

Local Open Scope list_scope.

(** The sum of the counts of a counting dict. *)
Definition tally_sum (t : tally) : Z := fold_right (fun kv acc => snd kv + acc) 0 t.

(** The three tallied fields of a record can be dict keys. *)
Definition keys_hashable (item : dict) : bool :=
  (hashable (get_or_unknown item "animal_type")
   && hashable (get_or_unknown item "outcome_type")
   && hashable (get_or_unknown item "breed"))%bool.

Lemma tally_sum_incr (k : value) (t : tally) :
  tally_sum (tally_set k (tally_get k t + 1) t) = tally_sum t + 1.
Proof.
  induction t as [| [k' n] t IH]; simpl; [lia |].
  destruct (Py.eq k' k); simpl; lia.
Qed.

Lemma tally_add_sum (k : value) (t t' : tally) :
  tally_add k t = Ok t' -> tally_sum t' = tally_sum t + 1.
Proof.
  unfold tally_add. destruct (hashable k); [| discriminate].
  intros H. inversion H. apply tally_sum_incr.
Qed.

Lemma stats_loop_sums (items : list dict) :
  forall a o b a' o' b',
    stats_loop items a o b = Ok (a', o', b') ->
    tally_sum a' = tally_sum a + Z.of_nat (List.length items) /\
    tally_sum o' = tally_sum o + Z.of_nat (List.length items) /\
    tally_sum b' = tally_sum b + Z.of_nat (List.length items).
Proof.
  induction items as [| item items IH]; intros a o b a' o' b' H; cbn [stats_loop] in H.
  - inversion H; subst. simpl. lia.
  - destruct (tally_add _ a) as [a1 |] eqn:Ha; [| discriminate].
    destruct (tally_add _ o) as [o1 |] eqn:Ho; [| discriminate].
    destruct (tally_add _ b) as [b1 |] eqn:Hb; [| discriminate].
    cbn [bind] in H. apply IH in H.
    apply tally_add_sum in Ha, Ho, Hb.
    simpl List.length. lia.
Qed.

Lemma stats_loop_total (items : list dict) :
  Forall (fun item => keys_hashable item = true) items ->
  forall a o b, exists r, stats_loop items a o b = Ok r.
Proof.
  induction 1 as [| item items Hk _ IH]; intros a o b; cbn [stats_loop].
  - eauto.
  - unfold keys_hashable in Hk. apply andb_prop in Hk. destruct Hk as [Hk Hb].
    apply andb_prop in Hk. destruct Hk as [Ha Ho].
    unfold tally_add. rewrite Ha, Ho, Hb. cbn [bind]. apply IH.
Qed.

(** The query [get_export_stats] reads with: [{}] for a falsy one. *)
Definition effective_query (query : value) : value :=
  if truthy query then query else VDict [].

(** X13: the export statistics add up.  When the read returns the records
    [selected] and their type, outcome and breed values are hashable,
    [get_export_stats] returns statistics whose [total_records] is the
    number of selected records, whose per-type and per-outcome counts each
    sum to that total, and whose [breeds_top] has at most five entries. *)
Theorem export_stats_add_up (self : AnimalShelter) (query : value) (selected : list dict) :
  read self (effective_query query) = Ok selected ->
  Forall (fun item => keys_hashable item = true) selected ->
  exists stats,
    get_export_stats self query = Ok stats /\
    total_records stats = Z.of_nat (List.length selected) /\
    tally_sum (animal_types stats) = total_records stats /\
    tally_sum (outcome_types stats) = total_records stats /\
    (List.length (breeds_top stats) <= 5)%nat.
Proof.
  unfold effective_query, get_export_stats. intros Hr Hk. rewrite Hr. cbn [bind].
  destruct selected as [| item items].
  - eexists. split; [reflexivity |]. simpl. repeat split; lia.
  - destruct (stats_loop_total _ Hk [] [] []) as ([[a o] b] & Hs).
    rewrite Hs. cbn [bind]. eexists. split; [reflexivity |].
    apply stats_loop_sums in Hs. destruct Hs as (Ha & Ho & _).
    cbn [total_records animal_types outcome_types breeds_top].
    split; [reflexivity |]. split; [exact Ha |]. split; [exact Ho |].
    apply firstn_le_length.
Qed.

Definition sample_store : AnimalShelter :=
  {| csv_file_path := "aac_shelter_outcomes.csv";
     data := [ [("animal_type", VStr "Dog"); ("breed", VStr "Beagle")];
               [("animal_type", VStr "Cat"); ("outcome_type", VStr "Adoption")];
               [("animal_type", VStr "Dog"); ("breed", VStr "Beagle")] ] |}.

Lemma export_stats_add_up_witness :
  exists stats,
    get_export_stats sample_store VNone = Ok stats /\
    total_records stats = 3 /\
    tally_sum (animal_types stats) = total_records stats /\
    tally_sum (outcome_types stats) = total_records stats /\
    (List.length (breeds_top stats) <= 5)%nat.
Proof.
  apply (export_stats_add_up sample_store VNone (data sample_store)).
  - reflexivity.
  - repeat constructor.
Defined.

(** ** What each count counts *)

(** The tally of one field, as the loop builds it. *)
Fixpoint field_tally (key : string) (items : list dict) (t : tally) : res tally :=
  match items with
  | [] => Ok t
  | item :: items' =>
      t' <- tally_add (get_or_unknown item key) t ;;
      field_tally key items' t'
  end.

Lemma stats_loop_fields (items : list dict) :
  forall a o b a' o' b',
    stats_loop items a o b = Ok (a', o', b') ->
    field_tally "animal_type" items a = Ok a' /\
    field_tally "outcome_type" items o = Ok o' /\
    field_tally "breed" items b = Ok b'.
Proof.
  induction items as [| item items IH]; intros a o b a' o' b' H;
    cbn [stats_loop field_tally] in *.
  - inversion H; subst. auto.
  - destruct (tally_add _ a) as [a1 |]; [| discriminate].
    destruct (tally_add _ o) as [o1 |]; [| discriminate].
    destruct (tally_add _ b) as [b1 |]; [| discriminate].
    cbn [bind] in *. now apply IH.
Qed.

(** The field is absent or holds text. *)
Definition text_field (key : string) (item : dict) : bool :=
  match Dict.get key item with
  | Some (VStr _) | None => true
  | Some _ => false
  end.

Definition text_keys (t : tally) : Prop :=
  Forall (fun kv => exists s, fst kv = VStr s) t.

(** The records whose field, ['Unknown'] when absent, is the text [s]. *)
Definition count_text (key s : string) (items : list dict) : Z :=
  Z.of_nat (List.length
    (filter (fun item => Py.eq (get_or_unknown item key) (VStr s)) items)).

Lemma text_field_value (key : string) (item : dict) :
  text_field key item = true -> exists s, get_or_unknown item key = VStr s.
Proof.
  unfold text_field, get_or_unknown.
  destruct (Dict.get key item) as [[| | | | s | |] |]; try discriminate; eauto.
Qed.

Lemma tally_get_set_text (s s' : string) (n : Z) (t : tally) :
  text_keys t ->
  tally_get (VStr s) (tally_set (VStr s') n t) =
  if String.eqb s' s then n else tally_get (VStr s) t.
Proof.
  induction 1 as [| [k n0] t [s0 Hk] _ IH]; cbn [tally_set tally_get].
  - cbn [Py.eq]. reflexivity.
  - simpl in Hk. subst k. cbn [Py.eq].
    destruct (String.eqb s0 s') eqn:E1; cbn [tally_get Py.eq].
    + apply String.eqb_eq in E1. subst s0. now destruct (String.eqb s' s).
    + rewrite IH. destruct (String.eqb s0 s) eqn:E2; [| reflexivity].
      apply String.eqb_eq in E2. subst s0.
      rewrite String.eqb_sym in E1. now rewrite E1.
Qed.

Lemma tally_set_text_keys (s : string) (n : Z) (t : tally) :
  text_keys t -> text_keys (tally_set (VStr s) n t).
Proof.
  induction 1 as [| [k n0] t Hk Ht IH]; cbn [tally_set].
  - repeat constructor. now exists s.
  - destruct (Py.eq k (VStr s)); constructor; auto.
Qed.

Lemma field_tally_counts (key : string) (items : list dict) :
  Forall (fun item => text_field key item = true) items ->
  forall t, text_keys t ->
    exists t',
      field_tally key items t = Ok t' /\ text_keys t' /\
      forall s, tally_get (VStr s) t' = tally_get (VStr s) t + count_text key s items.
Proof.
  unfold count_text.
  induction 1 as [| item items Hi _ IH]; intros t Ht; cbn [field_tally].
  - exists t. split; [reflexivity |]. split; [exact Ht |]. intros s. simpl. lia.
  - destruct (text_field_value key item Hi) as [s' Hs']. rewrite Hs'.
    unfold tally_add. cbn [hashable bind].
    destruct (IH _ (tally_set_text_keys s' (tally_get (VStr s') t + 1) t Ht))
      as (t' & Hf & Ht' & Hc).
    exists t'. split; [exact Hf |]. split; [exact Ht' |].
    intros s. rewrite Hc, (tally_get_set_text s s' _ t Ht).
    cbn [filter]. rewrite Hs'. cbn [Py.eq].
    destruct (String.eqb s' s) eqn:E; simpl List.length.
    + apply String.eqb_eq in E. subst s'. lia.
    + lia.
Qed.

(** X14: each count counts its records.  When the records read hold text
    (or nothing) for type, outcome and breed, the statistics exist, and for
    every text [s] the entry of [animal_types] for [s] is the number of
    records whose type is [s], a record without a type counting as
    ['Unknown']; likewise for [outcome_types]. *)
Theorem export_stats_counts (self : AnimalShelter) (query : value)
    (item : dict) (items : list dict) :
  read self (effective_query query) = Ok (item :: items) ->
  Forall (fun r => (text_field "animal_type" r && text_field "outcome_type" r
                    && text_field "breed" r)%bool = true) (item :: items) ->
  exists stats,
    get_export_stats self query = Ok stats /\
    (forall s, tally_get (VStr s) (animal_types stats) =
               count_text "animal_type" s (item :: items)) /\
    (forall s, tally_get (VStr s) (outcome_types stats) =
               count_text "outcome_type" s (item :: items)).
Proof.
  unfold effective_query, get_export_stats. intros Hr Hall. rewrite Hr. cbn [bind].
  assert (Hf : forall key,
            (key = "animal_type" \/ key = "outcome_type" \/ key = "breed") ->
            Forall (fun r => text_field key r = true) (item :: items)).
  { intros key Hkey. revert Hall. apply Forall_impl. intros r Hr3.
    apply andb_prop in Hr3. destruct Hr3 as [Hr3 Hb].
    apply andb_prop in Hr3. destruct Hr3 as [Ha Ho].
    destruct Hkey as [-> | [-> | ->]]; assumption. }
  assert (Hh : Forall (fun r => keys_hashable r = true) (item :: items)).
  { revert Hall. apply Forall_impl. intros r Hr3.
    apply andb_prop in Hr3. destruct Hr3 as [Hr3 Hb].
    apply andb_prop in Hr3. destruct Hr3 as [Ha Ho].
    unfold keys_hashable.
    destruct (text_field_value _ _ Ha) as [? ->].
    destruct (text_field_value _ _ Ho) as [? ->].
    destruct (text_field_value _ _ Hb) as [? ->]. reflexivity. }
  destruct (stats_loop_total _ Hh [] [] []) as ([[a o] b] & Hs).
  rewrite Hs. cbn [bind]. eexists. split; [reflexivity |].
  cbn [animal_types outcome_types].
  apply stats_loop_fields in Hs. destruct Hs as (Ha & Ho & _).
  destruct (field_tally_counts "animal_type" _ (Hf _ (or_introl eq_refl)) [] (Forall_nil _))
    as (a' & Ha' & _ & Hca).
  destruct (field_tally_counts "outcome_type" _ (Hf _ (or_intror (or_introl eq_refl)))
              [] (Forall_nil _)) as (o' & Ho' & _ & Hco).
  assert (a' = a) by congruence. assert (o' = o) by congruence. subst a' o'.
  split; intros s; [rewrite Hca | rewrite Hco]; simpl tally_get; lia.
Qed.

Lemma export_stats_counts_witness :
  exists stats,
    get_export_stats sample_store VNone = Ok stats /\
    (forall s, tally_get (VStr s) (animal_types stats) =
               count_text "animal_type" s (data sample_store)) /\
    (forall s, tally_get (VStr s) (outcome_types stats) =
               count_text "outcome_type" s (data sample_store)).
Proof.
  apply (export_stats_counts sample_store VNone).
  - reflexivity.
  - repeat constructor.
Defined.

(** ** The top breeds *)

Definition by_count (x y : value * Z) : Prop := snd y <= snd x.

Lemma insert_by_count_perm (x : value * Z) (l : tally) :
  Permutation (insert_by_count x l) (x :: l).
Proof.
  induction l as [| y l IH]; simpl; [reflexivity |].
  destruct (snd x <? snd y); [| reflexivity].
  rewrite IH. apply perm_swap.
Qed.

Lemma sort_by_count_perm (t : tally) : Permutation (sort_by_count t) t.
Proof.
  induction t as [| x t IH]; simpl; [reflexivity |].
  rewrite insert_by_count_perm. now constructor.
Qed.

Lemma insert_by_count_sorted (x : value * Z) (l : tally) :
  StronglySorted by_count l -> StronglySorted by_count (insert_by_count x l).
Proof.
  induction 1 as [| y l Hl IH Hy]; simpl.
  - repeat constructor.
  - destruct (Z.ltb_spec (snd x) (snd y)) as [Hlt | Hge].
    + constructor; [exact IH |].
      apply Forall_forall. intros z Hz.
      apply (Permutation_in _ (insert_by_count_perm x l)) in Hz.
      destruct Hz as [<- | Hz]; [unfold by_count; lia |].
      rewrite Forall_forall in Hy. now apply Hy.
    + constructor; [now constructor |].
      constructor; [unfold by_count; lia |].
      revert Hy. apply Forall_impl. unfold by_count. intros z Hz. lia.
Qed.

Lemma sort_by_count_sorted (t : tally) : StronglySorted by_count (sort_by_count t).
Proof.
  induction t as [| x t IH]; simpl; [constructor |].
  now apply insert_by_count_sorted.
Qed.

Lemma sorted_app {A : Type} (R : A -> A -> Prop) (l1 l2 : list A) :
  StronglySorted R (l1 ++ l2) ->
  StronglySorted R l1 /\ (forall x y, In x l1 -> In y l2 -> R x y).
Proof.
  induction l1 as [| a l1 IH]; simpl; intros H.
  - split; [constructor | intros ? ? []].
  - inversion H as [| ? ? Hs Hf]; subst. destruct (IH Hs) as [Hs1 Hr].
    rewrite Forall_app in Hf. destruct Hf as [Hf1 Hf2].
    split; [now constructor |].
    intros x y [<- | Hx] Hy; [| now apply Hr].
    rewrite Forall_forall in Hf2. now apply Hf2.
Qed.

(** X15: [breeds_top] holds the (up to five) most frequent breeds, most
    frequent first.  With the breed tally of the records read split into
    [breeds_top] and the rest, no breed of the rest has a larger count than
    a breed kept, and the rest is empty unless five breeds were kept. *)
Theorem export_stats_top_breeds (self : AnimalShelter) (query : value)
    (selected : list dict) (types outcomes breeds : tally) :
  read self (effective_query query) = Ok selected ->
  stats_loop selected [] [] [] = Ok (types, outcomes, breeds) ->
  exists stats rest,
    get_export_stats self query = Ok stats /\
    Permutation (breeds_top stats ++ rest) breeds /\
    StronglySorted by_count (breeds_top stats) /\
    (forall x y, In x (breeds_top stats) -> In y rest -> snd y <= snd x) /\
    (rest <> [] -> List.length (breeds_top stats) = 5%nat).
Proof.
  unfold effective_query, get_export_stats. intros Hr Hs. rewrite Hr. cbn [bind].
  destruct selected as [| item items].
  - cbn [stats_loop] in Hs. inversion Hs; subst.
    eexists. exists []. split; [reflexivity |]. cbn [breeds_top app].
    split; [constructor |]. split; [constructor |].
    split; [intros ? ? [] | intros H; now destruct H].
  - rewrite Hs. cbn [bind]. eexists. exists (skipn 5 (sort_by_count breeds)).
    split; [reflexivity |]. cbn [breeds_top].
    pose proof (sort_by_count_sorted breeds) as Hsorted.
    rewrite <- (firstn_skipn 5 (sort_by_count breeds)) in Hsorted.
    apply sorted_app in Hsorted. destruct Hsorted as [Htop Hrest].
    split; [rewrite firstn_skipn; apply sort_by_count_perm |].
    split; [exact Htop |]. split; [exact Hrest |].
    intros Hne. apply firstn_length_le.
    destruct (Nat.le_gt_cases 5 (List.length (sort_by_count breeds))) as [H | H];
      [exact H |].
    destruct Hne. apply skipn_all2. lia.
Qed.

Lemma export_stats_top_breeds_witness :
  exists stats rest,
    get_export_stats sample_store VNone = Ok stats /\
    Permutation (breeds_top stats ++ rest) [(VStr "Beagle", 2); (VStr "Unknown", 1)] /\
    StronglySorted by_count (breeds_top stats) /\
    (forall x y, In x (breeds_top stats) -> In y rest -> snd y <= snd x) /\
    (rest <> [] -> List.length (breeds_top stats) = 5%nat).
Proof.
  apply (export_stats_top_breeds sample_store VNone (data sample_store)
           [(VStr "Dog", 2); (VStr "Cat", 1)]
           [(VStr "Unknown", 2); (VStr "Adoption", 1)]).
  - reflexivity.
  - reflexivity.
Defined.

End ArtifactOneStatsSpec.

(** * Further properties of the rescue counters *)

Module RescueCountersSpec.

Import ArtifactOne ArtifactOneSpec.

Local Open Scope list_scope.

Definition one_of (v : value) (names : list string) : bool :=
  existsb (fun name => Py.eq v (VStr name)) names.

(** Wilderness-rescue eligibility, in words: an Intact Male Dog of one of
    the five wilderness breeds, with no age or an age of 26 to 156 weeks. *)
Definition wilderness_eligible (item : dict) : bool :=
  (Py.eq (item_get item "animal_type") (VStr "Dog")
   && one_of (item_get item "breed")
        ["German Shepherd"; "Alaskan Malamute"; "Old English Sheepdog";
         "Siberian Husky"; "Rottweiler"]
   && Py.eq (item_get item "sex_upon_outcome") (VStr "Intact Male")
   && age_eligible 26 156 item)%bool.

(** Disaster-rescue eligibility, in words: an Intact Male Dog of one of the
    five disaster breeds, with no age or an age of 20 to 300 weeks. *)
Definition disaster_eligible (item : dict) : bool :=
  (Py.eq (item_get item "animal_type") (VStr "Dog")
   && one_of (item_get item "breed")
        ["Doberman Pinscher"; "German Shepherd"; "Golden Retriever";
         "Bloodhound"; "Rottweiler"]
   && Py.eq (item_get item "sex_upon_outcome") (VStr "Intact Male")
   && age_eligible 20 300 item)%bool.

(** X16: the wilderness and disaster counters return the number of eligible
    records (ages assumed convertible without overflow, as an integer age
    beyond the float range makes a counter raise). *)
Theorem male_rescue_counts (items : list dict) :
  Forall age_fits items ->
  _count_wilderness_rescue_dogs items =
    Ok (Z.of_nat (List.length (filter wilderness_eligible items))) /\
  _count_disaster_rescue_dogs items =
    Ok (Z.of_nat (List.length (filter disaster_eligible items))).
Proof.
  intros Hfit. unfold _count_wilderness_rescue_dogs, _count_disaster_rescue_dogs.
  rewrite !(count_loop_closed _ _ _ _ _ Hfit). simpl Z.add.
  split; do 3 f_equal; apply filter_ext; intros item;
    unfold wilderness_eligible, disaster_eligible, profile_ok, one_of,
      wilderness_breeds, disaster_breeds; reflexivity.
Qed.

Definition shepherd (age : value) : dict :=
  [("animal_type", VStr "Dog"); ("breed", VStr "German Shepherd");
   ("sex_upon_outcome", VStr "Intact Male"); ("age_upon_outcome_in_weeks", age)].

(** A German Shepherd of 200 weeks is too old for the wilderness and still
    counts for disaster rescue. *)
Lemma male_rescue_counts_witness :
  _count_wilderness_rescue_dogs [shepherd (VInt 200); shepherd (VInt 48)] = Ok 1 /\
  _count_disaster_rescue_dogs [shepherd (VInt 200); shepherd (VInt 48)] = Ok 2.
Proof.
  destruct (male_rescue_counts [shepherd (VInt 200); shepherd (VInt 48)]) as [Hw Hd].
  - repeat constructor; vm_compute; discriminate.
  - rewrite Hw, Hd. split; vm_compute; reflexivity.
Defined.

Lemma sex_exclusive (item : dict) (breeds breeds' : list value) :
  (profile_ok breeds "Intact Female" item && profile_ok breeds' "Intact Male" item)%bool = false.
Proof.
  unfold profile_ok.
  destruct (Py.eq (item_get item "sex_upon_outcome") (VStr "Intact Female")) eqn:Ef;
    [| now rewrite !andb_false_r].
  destruct (item_get item "sex_upon_outcome") as [| | | | s | |]; try discriminate.
  cbn [Py.eq] in *. apply String.eqb_eq in Ef. subst s.
  now rewrite !andb_false_r.
Qed.

Lemma disjoint_filters_length {A : Type} (f g : A -> bool) (l : list A) :
  (forall x, (f x && g x)%bool = false) ->
  (List.length (filter f l) + List.length (filter g l) <= List.length l)%nat.
Proof.
  intros H. induction l as [| x l IH]; simpl; [lia |].
  specialize (H x). destruct (f x), (g x); simpl; try discriminate; lia.
Qed.

(** What a counter returns, when it returns: the number of records that
    pass its test. *)
Lemma count_loop_returns (breeds : list value) (sex : string) (lo hi : Z)
    (items : list dict) (n : Z) :
  count_loop breeds sex lo hi items 0 = Ok n ->
  n = Z.of_nat (List.length
        (filter (fun item => (profile_ok breeds sex item && age_eligible lo hi item)%bool)
                items)).
Proof.
  rewrite count_loop_cases. destruct (existsb _ items); [discriminate |].
  intros H. injection H as <-. reflexivity.
Qed.

Lemma eligible_exclusive (breeds breeds' : list value) (lo hi lo' hi' : Z) (item : dict) :
  ((profile_ok breeds "Intact Female" item && age_eligible lo hi item)
   && (profile_ok breeds' "Intact Male" item && age_eligible lo' hi' item))%bool = false.
Proof.
  pose proof (sex_exclusive item breeds breeds') as H.
  destruct (profile_ok breeds "Intact Female" item),
           (profile_ok breeds' "Intact Male" item);
    try discriminate; simpl; rewrite ?andb_false_r; reflexivity.
Qed.

(** X17: no record is counted both as a water-rescue dog and as a
    wilderness- or disaster-rescue dog: whenever the counters return, the
    water count plus either of the other two does not exceed the number of
    records, and each count lies between 0 and that number.  The three
    counters do return when no age overflows [float()]. *)
Theorem rescue_counts_bounds (items : list dict) :
  (forall water,
     _count_water_rescue_dogs items = Ok water ->
     0 <= water <= Z.of_nat (List.length items))
  /\ (forall wilderness,
        _count_wilderness_rescue_dogs items = Ok wilderness ->
        0 <= wilderness <= Z.of_nat (List.length items))
  /\ (forall disaster,
        _count_disaster_rescue_dogs items = Ok disaster ->
        0 <= disaster <= Z.of_nat (List.length items))
  /\ (forall water wilderness,
        _count_water_rescue_dogs items = Ok water ->
        _count_wilderness_rescue_dogs items = Ok wilderness ->
        water + wilderness <= Z.of_nat (List.length items))
  /\ (forall water disaster,
        _count_water_rescue_dogs items = Ok water ->
        _count_disaster_rescue_dogs items = Ok disaster ->
        water + disaster <= Z.of_nat (List.length items))
  /\ (Forall (fun item => age_overflows item = false) items ->
      exists water wilderness disaster,
        _count_water_rescue_dogs items = Ok water /\
        _count_wilderness_rescue_dogs items = Ok wilderness /\
        _count_disaster_rescue_dogs items = Ok disaster).
Proof.
  unfold _count_water_rescue_dogs, _count_wilderness_rescue_dogs, _count_disaster_rescue_dogs.
  split; [| split; [| split; [| split; [| split]]]].
  - intros n Hn. apply count_loop_returns in Hn. subst n.
    pose proof (filter_length_le
      (fun item => (profile_ok water_breeds "Intact Female" item
                    && age_eligible 26 156 item)%bool) items).
    lia.
  - intros n Hn. apply count_loop_returns in Hn. subst n.
    pose proof (filter_length_le
      (fun item => (profile_ok wilderness_breeds "Intact Male" item
                    && age_eligible 26 156 item)%bool) items).
    lia.
  - intros n Hn. apply count_loop_returns in Hn. subst n.
    pose proof (filter_length_le
      (fun item => (profile_ok disaster_breeds "Intact Male" item
                    && age_eligible 20 300 item)%bool) items).
    lia.
  - intros w m Hw Hm.
    apply count_loop_returns in Hw. apply count_loop_returns in Hm. subst w m.
    pose proof (disjoint_filters_length _ _ items
      (eligible_exclusive water_breeds wilderness_breeds 26 156 26 156)).
    lia.
  - intros w d Hw Hd.
    apply count_loop_returns in Hw. apply count_loop_returns in Hd. subst w d.
    pose proof (disjoint_filters_length _ _ items
      (eligible_exclusive water_breeds disaster_breeds 26 156 20 300)).
    lia.
  - intros Hfit.
    assert (Hnone : forall breeds sex,
      existsb (fun item => (profile_ok breeds sex item && age_overflows item)%bool) items
      = false).
    { intros breeds sex. induction Hfit as [| item items Hi _ IH]; simpl; [reflexivity |].
      now rewrite Hi, andb_false_r, IH. }
    rewrite !count_loop_cases, !Hnone. do 3 eexists. repeat split.
Qed.

Lemma rescue_counts_bounds_witness :
  1 + 1 <= Z.of_nat (List.length [labrador (VInt 52); shepherd (VInt 48)])
  /\ exists water wilderness disaster,
       _count_water_rescue_dogs [labrador (VInt 52); shepherd (VInt 48)] = Ok water /\
       _count_wilderness_rescue_dogs [labrador (VInt 52); shepherd (VInt 48)] = Ok wilderness /\
       _count_disaster_rescue_dogs [labrador (VInt 52); shepherd (VInt 48)] = Ok disaster.
Proof.
  destruct (rescue_counts_bounds [labrador (VInt 52); shepherd (VInt 48)])
    as (_ & _ & _ & Hsum & _ & Hret).
  split.
  - apply (Hsum 1 1); vm_compute; reflexivity.
  - apply Hret. repeat constructor.
Defined.

End RescueCountersSpec.

(** * Further properties of Artifact Three *)

Module ArtifactThreeExtra.

Import ArtifactThree ArtifactThreeAdmin.

Local Open Scope list_scope.

(** ** Mutations in demo mode *)

(** X18: without a backing store nothing is written: [create] returns
    [False], [update] and [delete] return 0, whatever the arguments. *)
Theorem demo_mutations_do_nothing
    (json_dumps : value -> res string) (self : AnimalShelter) (w : Writes)
    (new query update_data : value) (username : string) (multiple : bool) :
  connection_successful self = false ->
  create self w new username = false /\
  update json_dumps self w query update_data username multiple = 0 /\
  delete json_dumps self w query username multiple = 0.
Proof.
  intros Hc. unfold create, update, delete. rewrite Hc. auto.
Qed.

Definition offline : AnimalShelter :=
  {| connection_successful := false; auth_enabled := false; collection := None |}.

(** A connected shelter whose store holds one record. *)
Definition breakdown_free : AnimalShelter :=
  {| connection_successful := true; auth_enabled := false;
     collection :=
       Some {| find := fun _ _ => Ok [VDict [("animal_id", VStr "A1")]];
               aggregate := fun _ => Ok [] |} |}.

Definition no_writes : Writes :=
  {| insert_one := fun _ => Raise Exception_;
     update_one := fun _ _ => Raise Exception_;
     update_many := fun _ _ => Raise Exception_;
     delete_one := fun _ => Raise Exception_;
     delete_many := fun _ => Raise Exception_ |}.

Lemma demo_mutations_do_nothing_witness :
  create offline no_writes (VDict [("animal_id", VStr "A9")]) "admin" = false /\
  update (fun q => Ok (Py.repr q)) offline no_writes (VDict []) (VDict []) "admin" true = 0 /\
  delete (fun q => Ok (Py.repr q)) offline no_writes (VDict []) "admin" true = 0.
Proof.
  apply (demo_mutations_do_nothing (fun q => Ok (Py.repr q)) offline no_writes).
  reflexivity.
Defined.

(** ** Authentication in demo mode *)

Lemma eq_text (v : value) (s : string) : Py.eq v (VStr s) = true <-> v = VStr s.
Proof.
  destruct v; cbn [Py.eq]; try (split; discriminate).
  rewrite String.eqb_eq. split; [intros -> | intros [= ->]]; reflexivity.
Qed.

(** X19: in demo mode exactly the three default accounts log in.  The call
    returns [(True, token)] if and only if the user name and password are
    one of the pairs of [default_credentials] and [token] is what
    [jwt.encode] makes of that user name with the role listed for it. *)
Theorem demo_login_accounts
    (jwt_encode : value -> string -> res value) (checkpw : string -> value -> res bool)
    (tomorrow : value) (describe : exn -> string)
    (self : AnimalShelter) (users : option Users) (username password token : value) :
  connection_successful self = false ->
  (authenticate_user jwt_encode checkpw tomorrow describe self users username password
     = Ok (true, token)
   <->
   exists name pw role,
     In (name, (pw, role)) default_credentials /\
     username = VStr name /\ password = VStr pw /\
     jwt_encode (token_payload tomorrow (VStr name) (VStr role)) secret_key = Ok token).
Proof.
  intros Hc. unfold authenticate_user. rewrite Hc. cbn [negb]. split.
  - destruct username as [| | | | name | |]; try discriminate.
    destruct (Dict.get name default_credentials) as [[pw role] |] eqn:Hg; [| discriminate].
    destruct (Py.eq password (VStr pw)) eqn:Hp; [| discriminate].
    apply eq_text in Hp. subst password.
    destruct (jwt_encode _ _) as [tok |] eqn:Hj; [| discriminate].
    intros [= <-]. exists name, pw, role. repeat split; try assumption.
    revert Hg. unfold default_credentials. cbn [Dict.get].
    destruct (String.eqb name "admin") eqn:E1;
      [apply String.eqb_eq in E1; subst; intros [= <- <-]; simpl; auto |].
    destruct (String.eqb name "user") eqn:E2;
      [apply String.eqb_eq in E2; subst; intros [= <- <-]; simpl; auto |].
    destruct (String.eqb name "analyst") eqn:E3;
      [apply String.eqb_eq in E3; subst; intros [= <- <-]; simpl; auto |].
    discriminate.
  - intros (name & pw & role & Hin & -> & -> & Hj).
    assert (Hg : Dict.get name default_credentials = Some (pw, role)).
    { unfold default_credentials in *. simpl in Hin.
      destruct Hin as [H | [H | [H | []]]]; inversion H; subst; reflexivity. }
    rewrite Hg. cbn [Py.eq]. rewrite String.eqb_refl, Hj. reflexivity.
Qed.

(** A stand-in for [jwt.encode]: the payload's text, signed with the key. *)
Definition sign (payload : value) (key : string) : res value :=
  Ok (VStr (Py.repr payload ++ key)).

Lemma demo_login_accounts_witness :
  authenticate_user sign (fun _ _ => Ok false) (VStr "2025-01-02") (fun _ => "error")
    offline None (VStr "analyst") (VStr "analyst456")
  = Ok (true, VStr (Py.repr (token_payload (VStr "2025-01-02") (VStr "analyst") (VStr "analyst"))
                    ++ secret_key)).
Proof.
  apply (demo_login_accounts sign (fun _ _ => Ok false) (VStr "2025-01-02") (fun _ => "error")
           offline None); [reflexivity |].
  exists "analyst", "analyst456", "analyst". repeat split. simpl. auto.
Defined.

(** ** User management *)

(** The current user's document exists and its role is ['admin']. *)
Definition is_admin (users : option Users) (current_user : value) : Prop :=
  exists doc role,
    find_user users current_user = Ok doc /\
    ArtifactOneStats.truthy doc = true /\
    role_of doc = Ok role /\
    Py.eq role (VStr "admin") = true.

Lemma gate_passed (users : option Users) (current_user : value) :
  forall doc, find_user users current_user = Ok doc ->
              lacks_admin doc = Ok false -> is_admin users current_user.
Proof.
  intros doc Hf Hl. unfold lacks_admin in Hl.
  destruct (ArtifactOneStats.truthy doc) eqn:Ht; cbn [negb] in Hl; [| discriminate].
  destruct (role_of doc) as [role |] eqn:Hr; [| discriminate]. cbn [bind] in Hl.
  exists doc, role. repeat split; try assumption.
  unfold Py.ne in Hl. injection Hl as Hn. now apply negb_false_iff in Hn.
Qed.

Section Management.

Variable hashpw : string -> res value.
Variable now : value.
Variable describe : exn -> string.
Variable self : AnimalShelter.
Variable users : option Users.
Variable current_user : value.

(** X20: user management is for administrators of a connected store only:
    [create_user], [list_users] and [deactivate_user] return [True] only if
    the store is connected and the current user's document has the role
    ['admin']. *)
Theorem user_management_requires_admin (username password role email : value) :
  fst (create_user hashpw now describe self users current_user username password role email)
    = true \/
  fst (list_users describe self users current_user) = true \/
  fst (deactivate_user now describe self users current_user username) = true ->
  connection_successful self = true /\ is_admin users current_user.
Proof.
  unfold create_user, list_users, deactivate_user.
  destruct (connection_successful self); cbn [negb];
    [| intros [H | [H | H]]; discriminate].
  intros H. split; [reflexivity |].
  destruct (find_user users current_user) as [doc |] eqn:Hf; cbn [bind] in H;
    [| destruct H as [H | [H | H]]; discriminate].
  destruct (lacks_admin doc) as [[|] |] eqn:Hl; cbn [bind] in H;
    try (destruct H as [H | [H | H]]; discriminate).
  now apply (gate_passed users current_user doc).
Qed.

(** X21: [create_user] returns [True] only for a user name that is not
    taken, a role among admin, viewer and analyst, and a password that is
    text, and only after the new document was inserted. *)
Theorem create_user_success (username password role email : value) :
  fst (create_user hashpw now describe self users current_user username password role email)
    = true ->
  (exists existing, find_user users username = Ok existing /\
                    ArtifactOneStats.truthy existing = false) /\
  existsb (Py.eq role) valid_roles = true /\
  (exists text hashed u id,
     password = VStr text /\ hashpw text = Ok hashed /\ users = Some u /\
     users_insert_one u
       (VDict [("username", username); ("password", hashed); ("role", role);
               ("email", email); ("created_at", now); ("active", VBool true);
               ("created_by", current_user)]) = Ok id).
Proof.
  unfold create_user.
  destruct (connection_successful self); cbn [negb]; [| discriminate].
  destruct (find_user users current_user) as [doc |]; cbn [bind]; [| discriminate].
  destruct (lacks_admin doc) as [[|] |]; cbn [bind]; try discriminate.
  destruct (find_user users username) as [existing |] eqn:He; cbn [bind]; [| discriminate].
  destruct (ArtifactOneStats.truthy existing) eqn:Ht; [discriminate |].
  destruct (existsb (Py.eq role) valid_roles) eqn:Hr; cbn [negb]; [| discriminate].
  destruct password as [| | | | text | |]; cbn [password_text bind]; try discriminate.
  destruct (hashpw text) as [hashed |] eqn:Hh; cbn [bind]; [| discriminate].
  destruct users as [u |]; [| discriminate].
  destruct (users_insert_one u _) as [id |] eqn:Hi; cbn [bind]; [| discriminate].
  intros _. split; [eauto |]. split; [reflexivity |].
  exists text, hashed, u, id. auto.
Qed.

(** X22: nobody deactivates their own account: [deactivate_user] returns
    [True] only for a user name different from the current user's, and only
    when the store reports a modified document. *)
Theorem deactivate_user_success (username : value) :
  fst (deactivate_user now describe self users current_user username) = true ->
  Py.eq username current_user = false /\
  exists u modified_count,
    users = Some u /\
    users_update_one u (VDict [("username", username)])
      (set_fields (VDict [("active", VBool false); ("deactivated_at", now);
                          ("deactivated_by", current_user)])) = Ok modified_count /\
    0 < modified_count.
Proof.
  unfold deactivate_user.
  destruct (connection_successful self); cbn [negb]; [| discriminate].
  destruct (find_user users current_user) as [doc |]; cbn [bind]; [| discriminate].
  destruct (lacks_admin doc) as [[|] |]; cbn [bind]; try discriminate.
  destruct (Py.eq username current_user); [discriminate |].
  destruct users as [u |]; [| discriminate].
  destruct (users_update_one u _ _) as [n |] eqn:Hu; cbn [bind]; [| discriminate].
  destruct (Z.ltb_spec 0 n); [| discriminate].
  intros _. split; [reflexivity |]. exists u, n. auto.
Qed.

End Management.

(** A users collection with one administrator, ["root"]. *)
Definition root_doc : value := VDict [("username", VStr "root"); ("role", VStr "admin")].

Definition one_admin : Users :=
  {| users_find_one :=
       fun q => Ok (if Py.eq q (VDict [("username", VStr "root")]) then root_doc else VNone);
     users_find := fun _ _ => Ok [root_doc];
     users_insert_one := fun _ => Ok (VStr "id-1");
     users_update_one := fun _ _ => Ok 1 |}.

Definition online : AnimalShelter :=
  {| connection_successful := true; auth_enabled := false;
     collection := Some {| find := fun _ _ => Ok []; aggregate := fun _ => Ok [] |} |}.

Definition hash (text : string) : res value := Ok (VStr ("hash:" ++ text)).

Lemma user_management_requires_admin_witness :
  connection_successful online = true /\ is_admin (Some one_admin) (VStr "root").
Proof.
  apply (user_management_requires_admin hash (VStr "2025-01-01") (fun _ => "error")
           online (Some one_admin) (VStr "root")
           (VStr "ann") (VStr "pw") (VStr "viewer") (VStr "")).
  left. vm_compute. reflexivity.
Defined.

Lemma create_user_success_witness :
  existsb (Py.eq (VStr "viewer")) valid_roles = true.
Proof.
  apply (create_user_success hash (VStr "2025-01-01") (fun _ => "error")
           online (Some one_admin) (VStr "root")
           (VStr "ann") (VStr "pw") (VStr "viewer") (VStr "")).
  vm_compute. reflexivity.
Defined.

Lemma deactivate_user_success_witness :
  Py.eq (VStr "ann") (VStr "root") = false.
Proof.
  apply (deactivate_user_success (VStr "2025-01-01") (fun _ => "error")
           online (Some one_admin) (VStr "root") (VStr "ann")).
  vm_compute. reflexivity.
Defined.

(** ** Reads on a connected store *)

(** X25: the audited read returns what the unaudited read returns: for
    every shelter and query, [read(query, username)] equals
    [read_without_auth(query)] provided [json.dumps] accepts the query
    (its text goes into the audit entry); when it does not, [read] returns
    an empty list. *)
Theorem read_agrees_with_read_without_auth
    (json_dumps : value -> res string) (self : AnimalShelter)
    (query : value) (username : string) :
  (forall text, json_dumps query = Ok text ->
     read json_dumps self query username = read_without_auth self query)
  /\ (forall e, json_dumps query = Raise e -> connection_successful self = true ->
       read json_dumps self query username = VList []).
Proof.
  unfold read, read_without_auth. split.
  - intros text Hj. destruct (connection_successful self); cbn [negb]; [| reflexivity].
    rewrite Hj. now destruct query.
  - intros e Hj Hc. rewrite Hc, Hj. cbn [negb]. now destruct query.
Qed.

Lemma read_agrees_with_read_without_auth_witness :
  read (fun q => Ok (Py.repr q)) breakdown_free (VDict []) "analyst" =
  read_without_auth breakdown_free (VDict []).
Proof.
  destruct (read_agrees_with_read_without_auth (fun q => Ok (Py.repr q)) breakdown_free
              (VDict []) "analyst") as (H & _).
  apply (H (Py.repr (VDict []))). reflexivity.
Defined.

(** ** Analytics on a connected store *)

(** X23: a failing store never shows through the analytics: on a connected
    shelter, when an aggregation call raises, each analytics method returns
    its canned payload (for the rescue analytics, when any of its three
    calls raises); when the call returns, breed performance, adoption
    trends and demographics hand on the store's documents unchanged. *)
Theorem live_analytics_fall_back (self : AnimalShelter) (months : value) :
  connection_successful self = true ->
  (forall e, collection_aggregate self breed_performance_pipeline = Raise e ->
             get_breed_performance_metrics self = _get_mock_breed_performance)
  /\ (forall l, collection_aggregate self breed_performance_pipeline = Ok l ->
               get_breed_performance_metrics self = VList l)
  /\ (forall e, collection_aggregate self (adoption_trends_pipeline months) = Raise e ->
               get_monthly_adoption_trends self months = _get_mock_adoption_trends)
  /\ (forall l, collection_aggregate self (adoption_trends_pipeline months) = Ok l ->
               get_monthly_adoption_trends self months = VList l)
  /\ (forall e, collection_aggregate self demographics_pipeline = Raise e ->
               get_animal_demographics self = _get_mock_demographics)
  /\ (forall l, collection_aggregate self demographics_pipeline = Ok l ->
               get_animal_demographics self = VList l)
  /\ (forall e,
        collection_aggregate self water_rescue_pipeline = Raise e \/
        collection_aggregate self wilderness_rescue_pipeline = Raise e \/
        collection_aggregate self disaster_rescue_pipeline = Raise e ->
        get_rescue_type_analytics self = _get_mock_rescue_analytics).
Proof.
  intros Hc.
  unfold get_breed_performance_metrics, get_monthly_adoption_trends,
    get_animal_demographics, get_rescue_type_analytics.
  rewrite Hc. cbn [negb].
  split; [| split; [| split; [| split; [| split; [| split]]]]];
    try (intros x Hx; rewrite Hx; reflexivity).
  intros e H.
  destruct (collection_aggregate self water_rescue_pipeline) as [w |];
    [| reflexivity].
  destruct (collection_aggregate self wilderness_rescue_pipeline) as [m |];
    [| reflexivity].
  destruct (collection_aggregate self disaster_rescue_pipeline) as [d |];
    [| reflexivity].
  destruct H as [H | [H | H]]; discriminate.
Qed.

Definition failing_store : AnimalShelter :=
  {| connection_successful := true; auth_enabled := false;
     collection := Some {| find := fun _ _ => Raise Exception_;
                           aggregate := fun _ => Raise Exception_ |} |}.

Lemma live_analytics_fall_back_witness :
  get_breed_performance_metrics failing_store = _get_mock_breed_performance.
Proof.
  destruct (live_analytics_fall_back failing_store (VInt 12) eq_refl) as (H & _).
  apply (H Exception_). reflexivity.
Defined.

(** The count of a breakdown document, when it is an integer. *)
Definition int_count (doc : value) : option Z :=
  match doc with
  | VDict fields =>
      match Dict.get "count" fields with
      | Some (VInt n) => Some n
      | _ => None
      end
  | _ => None
  end.

Definition has_int_count (doc : value) : Prop := int_count doc <> None.

Definition total_count (breakdown : list value) : Z :=
  fold_right (fun doc acc => match int_count doc with Some n => n + acc | None => acc end)
             0 breakdown.

Lemma sum_counts_from (breakdown : list value) :
  Forall has_int_count breakdown ->
  forall start,
    fold_left (fun acc item => a <- acc ;; c <- Py.getitem item "count" ;; Py.add a c)
              breakdown (Ok (VInt start)) =
    Ok (VInt (start + total_count breakdown)).
Proof.
  induction 1 as [| doc breakdown Hd _ IH]; intros start; simpl.
  - now rewrite Z.add_0_r.
  - unfold has_int_count, int_count in Hd. unfold int_count at 1.
    destruct doc as [| | | | | | fields]; try (now destruct Hd).
    cbn [Py.getitem].
    destruct (Dict.get "count" fields) as [[| | n | | | |] |]; try (now destruct Hd).
    cbn [bind Py.add Py.as_int]. rewrite IH. do 2 f_equal. lia.
Qed.

(** X24: the totals of the rescue analytics are the sums of the breakdown
    counts.  On a connected shelter whose three aggregations return
    documents with integer counts, [get_rescue_type_analytics] returns, for
    each rescue class, the documents as [breakdown] and the sum of their
    counts as [total]. *)
Theorem rescue_totals_are_sums (self : AnimalShelter) (water wilderness disaster : list value) :
  connection_successful self = true ->
  collection_aggregate self water_rescue_pipeline = Ok water ->
  collection_aggregate self wilderness_rescue_pipeline = Ok wilderness ->
  collection_aggregate self disaster_rescue_pipeline = Ok disaster ->
  Forall has_int_count water -> Forall has_int_count wilderness ->
  Forall has_int_count disaster ->
  get_rescue_type_analytics self =
  VDict [("water_rescue",
          VDict [("total", VInt (total_count water)); ("breakdown", VList water)]);
         ("wilderness_rescue",
          VDict [("total", VInt (total_count wilderness)); ("breakdown", VList wilderness)]);
         ("disaster_rescue",
          VDict [("total", VInt (total_count disaster)); ("breakdown", VList disaster)])].
Proof.
  intros Hc Hw Hm Hd Fw Fm Fd. unfold get_rescue_type_analytics.
  rewrite Hc, Hw, Hm, Hd. cbn [negb bind]. unfold rescue_class, sum_counts.
  rewrite (sum_counts_from water Fw 0), (sum_counts_from wilderness Fm 0),
    (sum_counts_from disaster Fd 0).
  reflexivity.
Qed.

Definition breakdown_store : AnimalShelter :=
  {| connection_successful := true; auth_enabled := false;
     collection :=
       Some {| find := fun _ _ => Ok [];
               aggregate := fun _ =>
                 Ok [VDict [("_id", VStr "Rottweiler"); ("count", VInt 3)];
                     VDict [("_id", VStr "Bloodhound"); ("count", VInt 5)]] |} |}.

Lemma rescue_totals_are_sums_witness :
  Py.getitem (get_rescue_type_analytics breakdown_store) "disaster_rescue" =
  Ok (VDict [("total", VInt 8);
             ("breakdown", VList [VDict [("_id", VStr "Rottweiler"); ("count", VInt 3)];
                                  VDict [("_id", VStr "Bloodhound"); ("count", VInt 5)]])]).
Proof.
  rewrite (rescue_totals_are_sums breakdown_store
             [VDict [("_id", VStr "Rottweiler"); ("count", VInt 3)];
              VDict [("_id", VStr "Bloodhound"); ("count", VInt 5)]]
             [VDict [("_id", VStr "Rottweiler"); ("count", VInt 3)];
              VDict [("_id", VStr "Bloodhound"); ("count", VInt 5)]]
             [VDict [("_id", VStr "Rottweiler"); ("count", VInt 3)];
              VDict [("_id", VStr "Bloodhound"); ("count", VInt 5)]]);
    try reflexivity; repeat constructor; discriminate.
Defined.

End ArtifactThreeExtra.
